(** * AskURL: the ingestion and question-answering services

    A shallow embedding of [src/config.py], [src/utils/document_processor.py]
    and [src/utils/qa_chain.py].

    The two service classes are thin wrappers around third-party code.  The
    development therefore has three layers:

    - the remote services (URL partitioning, the embedding endpoint, the chat
      endpoint, the flat vector index search and the id generator) are the
      fields of the class [Services]: nothing is assumed about them;
    - the library routines the wrappers call (the URL loader, the recursive
      character splitter, the FAISS store with its two-file layout, the
      retriever and the prompt chain) are modelled in the modules
      [UrlLoader], [Splitter] and [Faiss] and, for the prompt chain, in
      [QAChain.chain_invoke], with the defaults that the wrappers leave
      untouched;
    - the wrappers themselves, [DocumentProcessor] and [QAChain], are
      transcribed method by method.

    Python exceptions and mutation are modelled by a state-and-exception monad
    [M]: a raised exception keeps the state reached so far. *)

From Stdlib Require Import ZArith Ascii String List.
From stdpp Require Import base decidable option list gmap strings pretty.

Open Scope string_scope.
Open Scope list_scope.

(** ** Python strings *)

Module Py.

Definition nl : string := String (ascii_of_nat 10) "".

(** [sep.join(l)] *)
Fixpoint join (sep : string) (l : list string) : string :=
  match l with
  | [] => ""
  | [x] => x
  | x :: rest => x +:+ sep +:+ join sep rest
  end.

(** [str.replace(old, new)] for a non-empty [old]: leftmost occurrences,
    not overlapping.  [skip] counts the characters of a matched [old] still
    to be dropped. *)
Fixpoint replace_from (old new : string) (skip : nat) (s : string) : string :=
  match s with
  | EmptyString => EmptyString
  | String c rest =>
      match skip with
      | S n => replace_from old new n rest
      | O =>
          if String.prefix old s
          then new +:+ replace_from old new (String.length old - 1) rest
          else String c (replace_from old new 0 rest)
      end
  end.

(** With an empty [old], Python puts [new] before every character and at
    the end. *)
Fixpoint intersperse (new : string) (s : string) : string :=
  match s with
  | EmptyString => new
  | String c rest => new +:+ String c (intersperse new rest)
  end.

Definition replace (old new s : string) : string :=
  match old with
  | EmptyString => intersperse new s
  | _ => replace_from old new 0 s
  end.

(** The characters [str.strip()] removes, for code points below 256. *)
Definition isspace (c : ascii) : bool :=
  let n := nat_of_ascii c in
  (Nat.leb 9 n && Nat.leb n 13) || (Nat.leb 28 n && Nat.leb n 32)
  || Nat.eqb n 133 || Nat.eqb n 160.

Fixpoint lstrip (s : string) : string :=
  match s with
  | EmptyString => EmptyString
  | String c rest => if isspace c then lstrip rest else s
  end.

Fixpoint rstrip (s : string) : string :=
  match s with
  | EmptyString => EmptyString
  | String c rest =>
      match rstrip rest with
      | EmptyString => if isspace c then EmptyString else String c EmptyString
      | r => String c r
      end
  end.

Definition strip (s : string) : string := rstrip (lstrip s).

(** [sub in s] *)
Fixpoint contains (sub s : string) : bool :=
  String.prefix sub s ||
  match s with
  | EmptyString => false
  | String _ rest => contains sub rest
  end.

(** [s.split(sep)] for a non-empty [sep]; [cur] is the piece being read. *)
Fixpoint split_from (sep : string) (skip : nat) (cur : string) (s : string)
  : list string :=
  match s with
  | EmptyString => [cur]
  | String c rest =>
      match skip with
      | S n => split_from sep n cur rest
      | O =>
          if String.prefix sep s
          then cur :: split_from sep (String.length sep - 1) EmptyString rest
          else split_from sep 0 (cur +:+ String c EmptyString) rest
      end
  end.

(** [list(s)] *)
Fixpoint chars (s : string) : list string :=
  match s with
  | EmptyString => []
  | String c rest => String c EmptyString :: chars rest
  end.

(** A dynamically typed value, as far as the services return one. *)
Inductive value : Type :=
| Str (s : string)
| StrList (l : list string).

End Py.

(** ** [src/config.py] *)

Module Config.
Definition BASE_URL : string := "https://models.inference.ai.azure.com".
Definition LLM_MODEL : string := "gpt-4o".
Definition EMBEDDING_MODEL : string := "text-embedding-3-small".
Definition LLM_TEMPERATURE : Z := 0.
Definition CHUNK_SIZE : Z := 1000.
Definition CHUNK_OVERLAP : Z := 200.
Definition RETRIEVAL_K : nat := 3.
Definition FAISS_INDEX_PATH : string := "faiss_store_openai.pkl".
End Config.

(** ** Data *)

(** A langchain [Document].  Every [Document] has a [metadata] dictionary, so
    the test [hasattr(doc, 'metadata')] of the source is true of all of them.
    Metadata values are strings, as the URL loader writes them. *)
Record Document : Type := mkDocument {
  page_content : string;
  metadata : gmap string string
}.

(** An embedding vector: its components as IEEE bit patterns. *)
Abbreviation Vec := (list Z).

Record OpenAIEmbeddings : Type := mkEmbeddings {
  emb_model : string;
  emb_api_key : option string;
  emb_base_url : string
}.

Record ChatOpenAI : Type := mkChat {
  llm_model : string;
  llm_api_key : option string;
  llm_base_url : string;
  llm_temperature : Z
}.

Inductive Message : Type :=
| SystemMessage (content : string)
| HumanMessage (content : string).

(** The FAISS store object: the embedding function it was given, the flat
    index (one vector per row), the document store and the row-to-id map. *)
Record FAISS : Type := mkFAISS {
  embedding_function : OpenAIEmbeddings;
  index : list Vec;
  docstore : gmap string Document;
  index_to_docstore_id : gmap nat string
}.

Inductive exn : Type :=
| ServiceError (msg : string)
| IndexError
| KeyError
| ValueError (msg : string)
| FileExistsError (path : string)
| FileNotFoundError (path : string)
| IsADirectoryError (path : string)
| RuntimeError (msg : string)
| UnpicklingError (path : string).

Inductive outcome (A : Type) : Type :=
| Ok (a : A)
| Raise (e : exn).
Arguments Ok {A} a.
Arguments Raise {A} e.

(** ** The file system *)

(** What a regular file holds: a serialised flat index, a pickled pair of
    document store and id map, or anything else. *)
Inductive payload : Type :=
| FaissIndexFile (rows : list Vec)
| PickleFile (ds : gmap string Document) (ids : gmap nat string)
| OtherFile (bytes : string).

Inductive node : Type :=
| File (p : payload)
| Dir.

(** Calls that leave the process, in the order they are made. *)
Inductive Event : Type :=
| EvFetch (url : string)
| EvEmbed (texts : list string)
| EvRetrieve (question : string)
| EvChat (messages : list Message)
| EvSaveLocal (path : string)
| EvLoadLocal (path : string).

(** The state the methods run in: the disk (path names are taken normalised),
    a counter of service calls, the trace of events, and the [embeddings]
    attribute of the [DocumentProcessor] object. *)
Record State : Type := mkState {
  fs : gmap string node;
  tick : nat;
  log : list Event;
  embeddings : option OpenAIEmbeddings
}.

(** ** The monad *)

Definition M (A : Type) : Type := State -> State * outcome A.

Definition ret {A} (a : A) : M A := fun s => (s, Ok a).
Definition raise {A} (e : exn) : M A := fun s => (s, Raise e).
Definition bind {A B} (m : M A) (k : A -> M B) : M B :=
  fun s => match m s with
           | (s', Ok a) => k a s'
           | (s', Raise e) => (s', Raise e)
           end.
Definition get : M State := fun s => (s, Ok s).
Definition lift {A} (o : outcome A) : M A := fun s => (s, o).

Declare Scope monad_scope.
Delimit Scope monad_scope with M.
Notation "'let*' x ':=' m 'in' k" := (bind m (fun x => k))
  (at level 10, x pattern, m at level 100, k at level 200) : monad_scope.
Notation "m ';;' k" := (bind m (fun _ => k))
  (at level 100, k at level 200, right associativity) : monad_scope.
Open Scope monad_scope.

Definition emit (e : Event) : M unit :=
  fun s => ({| fs := fs s; tick := tick s; log := log s ++ [e];
               embeddings := embeddings s |}, Ok tt).

(** Take the current value of the call counter and advance it. *)
Definition next_tick : M nat :=
  fun s => ({| fs := fs s; tick := S (tick s); log := log s;
               embeddings := embeddings s |}, Ok (tick s)).

Definition set_fs (f : gmap string node) : M unit :=
  fun s => ({| fs := f; tick := tick s; log := log s;
               embeddings := embeddings s |}, Ok tt).

Definition set_embeddings (e : option OpenAIEmbeddings) : M unit :=
  fun s => ({| fs := fs s; tick := tick s; log := log s;
               embeddings := e |}, Ok tt).

(** ** The remote services *)

Class Services : Type := {
  (** the environment variable read by [config.py] *)
  GITHUB_TOKEN : option string;
  (** [unstructured.partition(url=...)]: the text elements of a page *)
  partition : nat -> string -> outcome (list string);
  (** the embedding endpoint: one vector per text *)
  embed_api : OpenAIEmbeddings -> nat -> list string -> outcome (list Vec);
  (** the chat endpoint: the content of the reply *)
  chat_api : ChatOpenAI -> nat -> list Message -> outcome string;
  (** [IndexFlatL2.search]: the rows nearest to a vector, [-1] where the
      index has fewer rows than asked for *)
  index_search : list Vec -> Vec -> nat -> list Z;
  (** [str(uuid.uuid4())], by call counter and position *)
  uuid4 : nat -> nat -> string
}.

(** ** The URL loader: [langchain_community.document_loaders] *)

Module UrlLoader.
Section Loader.
Context `{Services}.

Record UnstructuredURLLoader : Type := mkLoader {
  urls : list string;
  continue_on_failure : bool
}.

(** [UnstructuredURLLoader(urls=urls)]: [continue_on_failure] keeps its
    default, [True]; the mode keeps its default, ["single"]. *)
Definition new (urls : list string) : UnstructuredURLLoader :=
  {| urls := urls; continue_on_failure := true |}.

(** The loop of [load]: a page that cannot be fetched or parsed is logged
    and skipped when [continue_on_failure] is set, and raised otherwise. *)
Fixpoint load_from (cont : bool) (todo : list string) (docs : list Document)
  : M (list Document) :=
  match todo with
  | [] => ret docs
  | url :: rest =>
      emit (EvFetch url) ;;
      let* t := next_tick in
      match partition t url with
      | Ok elements =>
          let text := Py.join (Py.nl +:+ Py.nl) elements in
          let md : gmap string string := {[ "source" := url ]} in
          load_from cont rest (docs ++ [mkDocument text md])
      | Raise e =>
          if cont then load_from cont rest docs else raise e
      end
  end.

Definition load (l : UnstructuredURLLoader) : M (list Document) :=
  load_from (continue_on_failure l) (urls l) [].

End Loader.
End UrlLoader.

(** ** The splitter: [langchain_text_splitters] *)

Module Splitter.

(** [RecursiveCharacterTextSplitter]; [keep_separator], [strip_whitespace]
    and [length_function] keep their defaults ([True], [True], [len]). *)
Record RecursiveCharacterTextSplitter : Type := mkSplitter {
  chunk_size : Z;
  chunk_overlap : Z;
  separators : list string
}.

Definition default_separators : list string :=
  [Py.nl +:+ Py.nl; Py.nl; " "; ""].

(** The constructor and its argument checks. *)
Definition new (size overlap : Z) : outcome RecursiveCharacterTextSplitter :=
  if (size <=? 0)%Z then Raise (ValueError "chunk_size must be > 0")
  else if (overlap <? 0)%Z then Raise (ValueError "chunk_overlap must be >= 0")
  else if (overlap >? size)%Z
  then Raise (ValueError "Got a larger chunk overlap than chunk size")
  else Ok {| chunk_size := size; chunk_overlap := overlap;
             separators := default_separators |}.

Definition len (s : string) : Z := Z.of_nat (String.length s).

(** [_split_text_with_regex] with [keep_separator=True]: every piece but
    the first starts with the separator; empty pieces are dropped. *)
Definition split_with_regex (text separator : string) : list string :=
  let splits :=
    match separator with
    | EmptyString => Py.chars text
    | _ =>
        match Py.split_from separator 0 EmptyString text with
        | [] => []
        | first :: others => first :: map (fun t => separator +:+ t) others
        end
    end in
  filter (fun s => s <> EmptyString) splits.

(** [_join_docs] *)
Definition join_docs (docs : list string) (separator : string)
  : option string :=
  let text := Py.strip (Py.join separator docs) in
  if decide (text = EmptyString) then None else Some text.

Definition emitted (docs : list string) (separator : string) : list string :=
  match join_docs docs separator with
  | Some doc => [doc]
  | None => []
  end.

Section Merge.
Variable sp : RecursiveCharacterTextSplitter.
Variable separator : string.

Definition sep_if (b : bool) : Z := if b then len separator else 0%Z.

(** The condition of the [while] loop of [_merge_splits]. *)
Definition must_pop (total len_d : Z) (current_doc : list string) : bool :=
  (total >? chunk_overlap sp)%Z
  || ((total + len_d + sep_if (Nat.ltb 0 (length current_doc))
         >? chunk_size sp)%Z && (total >? 0)%Z).

(** The [while] loop: drop pieces from the front of [current_doc]. *)
Fixpoint pop_front (len_d total : Z) (current_doc : list string)
  : outcome (Z * list string) :=
  match current_doc with
  | [] =>
      if must_pop total len_d [] then Raise IndexError
      else Ok (total, [])
  | first :: rest =>
      if must_pop total len_d current_doc
      then pop_front len_d
             (total - (len first + sep_if (Nat.ltb 1 (length current_doc))))%Z
             rest
      else Ok (total, current_doc)
  end.

(** The [for] loop of [_merge_splits] and its epilogue. *)
Fixpoint merge_from (splits : list string) (docs current_doc : list string)
  (total : Z) : outcome (list string) :=
  match splits with
  | [] => Ok (docs ++ emitted current_doc separator)
  | d :: rest =>
      let len_d := len d in
      let append (docs current_doc : list string) (total : Z) :=
        let current_doc := current_doc ++ [d] in
        merge_from rest docs current_doc
          (total + (len_d + sep_if (Nat.ltb 1 (length current_doc))))%Z in
      if (total + len_d + sep_if (Nat.ltb 0 (length current_doc))
            >? chunk_size sp)%Z
      then
        if Nat.ltb 0 (length current_doc)
        then
          match pop_front len_d total current_doc with
          | Ok (total', current_doc') =>
              append (docs ++ emitted current_doc separator)
                current_doc' total'
          | Raise e => Raise e
          end
        else append docs current_doc total
      else append docs current_doc total
  end.

Definition merge_splits (splits : list string) : outcome (list string) :=
  merge_from splits [] [] 0%Z.

End Merge.

Section Recursive.
Variable sp : RecursiveCharacterTextSplitter.

(** The [for s in splits] loop of [_split_text].  Pieces are merged with
    the empty separator, since the separator is kept in the pieces.
    [deeper] is the recursive call on the remaining separators, absent
    when there are none. *)
Fixpoint split_pieces (deeper : option (string -> outcome (list string)))
  (splits good_splits final_chunks : list string)
  : outcome (list string) :=
  match splits with
  | [] =>
      match good_splits with
      | [] => Ok final_chunks
      | _ =>
          match merge_splits sp EmptyString good_splits with
          | Ok merged => Ok (final_chunks ++ merged)
          | Raise e => Raise e
          end
      end
  | s :: rest =>
      if (len s <? chunk_size sp)%Z
      then split_pieces deeper rest (good_splits ++ [s]) final_chunks
      else
        let flushed :=
          match good_splits with
          | [] => Ok final_chunks
          | _ =>
              match merge_splits sp EmptyString good_splits with
              | Ok merged => Ok (final_chunks ++ merged)
              | Raise e => Raise e
              end
          end in
        match flushed with
        | Raise e => Raise e
        | Ok final_chunks =>
            match deeper with
            | None => split_pieces deeper rest [] (final_chunks ++ [s])
            | Some recur =>
                match recur s with
                | Ok other => split_pieces deeper rest []
                                (final_chunks ++ other)
                | Raise e => Raise e
                end
            end
        end
  end.

(** [_split_text]: the first separator that is empty or occurs in the
    text is used; [last] is [separators[-1]], used when none does. *)
Fixpoint split_text_with (last : string) (seps : list string)
  (text : string) {struct seps} : outcome (list string) :=
  match seps with
  | [] => split_pieces None (split_with_regex text last) [] []
  | s :: rest =>
      if decide (s = EmptyString)
      then split_pieces None (split_with_regex text EmptyString) [] []
      else if Py.contains s text
      then
        let deeper :=
          match rest with
          | [] => None
          | _ => Some (split_text_with last rest)
          end in
        split_pieces deeper (split_with_regex text s) [] []
      else split_text_with last rest text
  end.

Definition split_text (text : string) : outcome (list string) :=
  match separators sp with
  | [] => Raise IndexError
  | seps => split_text_with (List.last seps EmptyString) seps text
  end.

(** [split_documents], through [create_documents]: each chunk carries a
    copy of its document's metadata. *)
Fixpoint split_documents (documents : list Document)
  : outcome (list Document) :=
  match documents with
  | [] => Ok []
  | doc :: rest =>
      match split_text (page_content doc) with
      | Raise e => Raise e
      | Ok chunks =>
          match split_documents rest with
          | Raise e => Raise e
          | Ok more =>
              Ok (map (fun c => mkDocument c (metadata doc)) chunks ++ more)
          end
      end
  end.

End Recursive.
End Splitter.

(** ** The vector store: [langchain_community.vectorstores.FAISS] *)

Module Faiss.
Section Store.
Context `{Services}.

(** [embedding.embed_documents(texts)] *)
Definition embed_documents (e : OpenAIEmbeddings) (texts : list string)
  : M (list Vec) :=
  emit (EvEmbed texts) ;;
  let* t := next_tick in
  lift (embed_api e t texts).

(** [embedding.embed_query(text)] is [embed_documents([text])[0]]. *)
Definition embed_query (e : OpenAIEmbeddings) (text : string) : M Vec :=
  let* vectors := embed_documents e [text] in
  match vectors with
  | v :: _ => ret v
  | [] => raise IndexError
  end.

(** [FAISS.from_documents(documents, embedding)]: one remote call for all
    the texts, then a flat index over the vectors and a fresh id per
    document.  The index is sized from [embeddings[0]], so an empty batch
    raises; nothing is built unless every step succeeds. *)
Definition from_documents (documents : list Document) (e : OpenAIEmbeddings)
  : M FAISS :=
  let texts := map page_content documents in
  let* vectors := embed_documents e texts in
  match vectors with
  | [] => raise IndexError
  | _ =>
      if negb (Nat.eqb (length documents) (length vectors))
      then raise (ValueError "documents and embeddings differ in length")
      else
        let* t := next_tick in
        let ids := map (uuid4 t) (seq 0 (length texts)) in
        if negb (bool_decide (NoDup ids))
        then raise (ValueError "Duplicate ids found in the ids list.")
        else
          ret {| embedding_function := e;
                 index := vectors;
                 docstore := list_to_map (zip ids documents);
                 index_to_docstore_id :=
                   list_to_map (zip (seq 0 (length ids)) ids) |}
  end.

Definition index_file (folder : string) : string := folder +:+ "/index.faiss".
Definition pickle_file (folder : string) : string := folder +:+ "/index.pkl".

(** [save_local(folder_path)]: make the folder (parents included, an
    existing folder is fine), write the index, then pickle the document
    store and the id map. *)
Definition save_local (vs : FAISS) (folder : string) : M unit :=
  emit (EvSaveLocal folder) ;;
  let* s := get in
  match fs s !! folder with
  | Some (File _) => raise (FileExistsError folder)
  | _ =>
      set_fs (<[folder := Dir]> (fs s)) ;;
      let* s := get in
      match fs s !! index_file folder with
      | Some Dir => raise (RuntimeError "could not open the index for writing")
      | _ =>
          set_fs (<[index_file folder := File (FaissIndexFile (index vs))]>
                    (fs s)) ;;
          let* s := get in
          match fs s !! pickle_file folder with
          | Some Dir => raise (IsADirectoryError (pickle_file folder))
          | _ =>
              set_fs (<[pickle_file folder :=
                          File (PickleFile (docstore vs)
                                  (index_to_docstore_id vs))]> (fs s))
          end
      end
  end.

(** [FAISS.load_local(folder_path, embeddings,
    allow_dangerous_deserialization=True)]: read the index, then unpickle
    the document store and the id map; the embedding function is the one
    passed in. *)
Definition load_local (folder : string) (e : OpenAIEmbeddings) : M FAISS :=
  emit (EvLoadLocal folder) ;;
  let* s := get in
  match fs s !! index_file folder with
  | Some (File (FaissIndexFile rows)) =>
      match fs s !! pickle_file folder with
      | Some (File (PickleFile ds ids)) =>
          ret {| embedding_function := e; index := rows;
                 docstore := ds; index_to_docstore_id := ids |}
      | Some (File _) => raise (UnpicklingError (pickle_file folder))
      | Some Dir => raise (IsADirectoryError (pickle_file folder))
      | None => raise (FileNotFoundError (pickle_file folder))
      end
  | _ => raise (RuntimeError "could not read the index")
  end.

(** The loop of [similarity_search_with_score_by_vector]: row [-1] pads a
    short answer and is skipped; any other row must resolve. *)
Fixpoint fetch_rows (vs : FAISS) (rows : list Z) : outcome (list Document) :=
  match rows with
  | [] => Ok []
  | i :: rest =>
      if (i =? -1)%Z then fetch_rows vs rest
      else if (i <? 0)%Z then Raise KeyError
      else
        match index_to_docstore_id vs !! Z.to_nat i with
        | None => Raise KeyError
        | Some id =>
            match docstore vs !! id with
            | None => Raise (ValueError "Could not find document for id")
            | Some doc =>
                match fetch_rows vs rest with
                | Ok docs => Ok (doc :: docs)
                | Raise e => Raise e
                end
            end
        end
  end.

(** [similarity_search(query, k)] *)
Definition similarity_search (vs : FAISS) (query : string) (k : nat)
  : M (list Document) :=
  let* v := embed_query (embedding_function vs) query in
  let* docs := lift (fetch_rows vs (index_search (index vs) v k)) in
  ret (take k docs).

(** [vectorstore.as_retriever(search_kwargs={"k": k})] *)
Record VectorStoreRetriever : Type := mkRetriever {
  vectorstore : FAISS;
  search_k : nat
}.

Definition as_retriever (vs : FAISS) (k : nat) : VectorStoreRetriever :=
  {| vectorstore := vs; search_k := k |}.

(** [retriever.invoke(question)] *)
Definition invoke (r : VectorStoreRetriever) (question : string)
  : M (list Document) :=
  emit (EvRetrieve question) ;;
  similarity_search (vectorstore r) question (search_k r).

End Store.
End Faiss.

(** ** [src/utils/document_processor.py] *)

Module DocumentProcessor.
Section Methods.
Context `{Services}.

(** The object: its splitter is fixed at construction; its [embeddings]
    attribute is the [embeddings] field of the state. *)
Record t : Type := mkProcessor {
  text_splitter : Splitter.RecursiveCharacterTextSplitter
}.

(** [__init__], for the two splitting constants of [config.py]. *)
Definition init_with (chunk_size chunk_overlap : Z) : outcome t :=
  match Splitter.new chunk_size chunk_overlap with
  | Ok sp => Ok {| text_splitter := sp |}
  | Raise e => Raise e
  end.

Definition init : outcome t :=
  init_with Config.CHUNK_SIZE Config.CHUNK_OVERLAP.

Definition configured_embeddings : OpenAIEmbeddings :=
  {| emb_model := Config.EMBEDDING_MODEL;
     emb_api_key := GITHUB_TOKEN;
     emb_base_url := Config.BASE_URL |}.

Definition _initialize_embeddings : M OpenAIEmbeddings :=
  let* s := get in
  match embeddings s with
  | None =>
      set_embeddings (Some configured_embeddings) ;;
      ret configured_embeddings
  | Some e => ret e
  end.

Definition load_urls (urls : list string) : M (list Document) :=
  let loader := UrlLoader.new urls in
  let* documents := UrlLoader.load loader in
  ret documents.

Definition split_documents (self : t) (documents : list Document)
  : M (list Document) :=
  let* chunks := lift (Splitter.split_documents (text_splitter self)
                         documents) in
  ret chunks.

Definition create_vectorstore (documents : list Document) : M FAISS :=
  let* e := _initialize_embeddings in
  let* vectorstore := Faiss.from_documents documents e in
  ret vectorstore.

(** [FAISS_INDEX_PATH.replace('.pkl', '')] *)
Definition default_path : string :=
  Py.replace ".pkl" "" Config.FAISS_INDEX_PATH.

Definition save_vectorstore (vectorstore : FAISS)
  (file_path : option string) : M unit :=
  let file_path :=
    match file_path with
    | None => default_path
    | Some p => p
    end in
  Faiss.save_local vectorstore file_path.

(** [os.path.exists] and [os.path.isdir] *)
Definition path_exists (s : State) (p : string) : bool :=
  match fs s !! p with
  | Some _ => true
  | None => false
  end.

Definition path_isdir (s : State) (p : string) : bool :=
  match fs s !! p with
  | Some Dir => true
  | _ => false
  end.

Definition index_exists (file_path : option string) : M bool :=
  let file_path :=
    match file_path with
    | None => default_path
    | Some p => p
    end in
  let* s := get in
  ret (path_exists s file_path && path_isdir s file_path).

Definition load_vectorstore (file_path : option string)
  : M (option FAISS) :=
  let file_path :=
    match file_path with
    | None => default_path
    | Some p => p
    end in
  let* found := index_exists (Some file_path) in
  if found
  then
    let* e := _initialize_embeddings in
    let* vectorstore := Faiss.load_local file_path e in
    ret (Some vectorstore)
  else ret None.

Definition process_urls (self : t) (urls : list string) (save_index : bool)
  : M (FAISS * nat * nat) :=
  let* documents := load_urls urls in
  let num_documents := length documents in
  let* chunks := split_documents self documents in
  let num_chunks := length chunks in
  let* vectorstore := create_vectorstore chunks in
  (if save_index then save_vectorstore vectorstore None else ret tt) ;;
  ret (vectorstore, num_documents, num_chunks).

End Methods.
End DocumentProcessor.

(** ** [src/utils/qa_chain.py] *)

Module QAChain.
Section Methods.
Context `{Services}.

Record t : Type := mkQAChain {
  vectorstore : FAISS;
  llm : ChatOpenAI;
  retriever : Faiss.VectorStoreRetriever
}.

Definition _initialize_llm : ChatOpenAI :=
  {| llm_model := Config.LLM_MODEL;
     llm_api_key := GITHUB_TOKEN;
     llm_base_url := Config.BASE_URL;
     llm_temperature := Config.LLM_TEMPERATURE |}.

Definition init (vectorstore : FAISS) : t :=
  {| vectorstore := vectorstore;
     llm := _initialize_llm;
     retriever := Faiss.as_retriever vectorstore Config.RETRIEVAL_K |}.

(** The system template up to its [{context}] slot. *)
Definition system_template : string :=
  "You are a helpful assistant that answers questions based on the provided context."
  +:+ Py.nl +:+
  "Use the following pieces of context to answer the question at the end."
  +:+ Py.nl +:+
  "If you don't know the answer, just say that you don't know, don't try to make up an answer."
  +:+ Py.nl +:+ Py.nl +:+ "Context: ".

(** [self.prompt] applied to the two inputs of the chain. *)
Definition prompt (context question : string) : list Message :=
  [SystemMessage (system_template +:+ context); HumanMessage question].

Definition _format_docs (docs : list Document) : string :=
  Py.join (Py.nl +:+ Py.nl) (map page_content docs).

(** [self.llm.invoke(messages)]: the content of the reply. *)
Definition llm_invoke (m : ChatOpenAI) (messages : list Message) : M string :=
  emit (EvChat messages) ;;
  let* t := next_tick in
  lift (chat_api m t messages).

(** [self.chain.invoke(question)]: the chain built by [_create_chain]
    retrieves, formats the context, fills the prompt and calls the model. *)
Definition chain_invoke (self : t) (question : string) : M string :=
  let* docs := Faiss.invoke (retriever self) question in
  let context := _format_docs docs in
  llm_invoke (llm self) (prompt context question).

Definition ask (self : t) (question : string) : M string :=
  let* response := chain_invoke self question in
  ret response.

(** One turn of the loop that collects the sources. *)
Definition collect (acc : list string * gset string) (doc : Document)
  : list string * gset string :=
  let '(sources, seen_sources) := acc in
  match metadata doc !! "source" with
  | Some source =>
      if decide (source ∈ seen_sources) then acc
      else (sources ++ [source], seen_sources ∪ {[ source ]})
  | None => acc
  end.

Definition unique_sources (docs : list Document) : list string :=
  fst (fold_left collect docs ([], ∅)).

(** ["\n".join(sources) if sources else "No sources available"] *)
Definition render_sources (sources : list string) : string :=
  match sources with
  | [] => "No sources available"
  | _ => Py.join Py.nl sources
  end.

Definition ask_with_sources (self : t) (question : string)
  : M (gmap string Py.value) :=
  let* docs := Faiss.invoke (retriever self) question in
  let* answer := ask self question in
  let sources := unique_sources docs in
  ret (<[ "sources" := Py.Str (render_sources sources) ]>
         (<[ "answer" := Py.Str answer ]> ∅)).


End Methods.
End QAChain.

(** ** [src/app.py]: the parts of the script that compute *)

Module App.
Section Script.
Context `{Services}.

(** [[url.strip() for url in urls_input.split('\n') if url.strip()]] *)
Definition parse_urls (urls_input : string) : list string :=
  map Py.strip
    (filter (fun url => Py.strip url <> EmptyString)
       (Py.split_from Py.nl 0 EmptyString urls_input)).

(** Where a click on the process button leads: to the pipeline over the
    parsed URLs, or to one of the two warnings. *)
Inductive ProcessBranch : Type :=
| RunPipeline (urls : list string)
| WarnNoValidUrl
| WarnEnterUrls.

Definition process_branch (urls_input : string) : ProcessBranch :=
  if decide (Py.strip urls_input = EmptyString) then WarnEnterUrls
  else
    let urls := parse_urls urls_input in
    if Nat.ltb 0 (length urls) then RunPipeline urls else WarnNoValidUrl.

(** The calls of the [try] block of the process button, up to the save. *)
Definition process_clicked (doc_processor : DocumentProcessor.t)
  (urls : list string) : M (FAISS * list Document * list Document) :=
  let* documents := DocumentProcessor.load_urls urls in
  let* chunks := DocumentProcessor.split_documents doc_processor documents in
  let* vectorstore := DocumentProcessor.create_vectorstore chunks in
  DocumentProcessor.save_vectorstore vectorstore None ;;
  ret (vectorstore, documents, chunks).

(** Where a click on the load button leads, before any exception handler:
    [index_exists()], then [load_vectorstore()] and the test of its
    result. *)
Inductive LoadBranch : Type :=
| Loaded (vectorstore : FAISS)
| FailedToLoad
| NoSavedIndex.

Definition load_clicked : M LoadBranch :=
  let* found := DocumentProcessor.index_exists None in
  if found
  then
    let* vectorstore := DocumentProcessor.load_vectorstore None in
    match vectorstore with
    | Some vs => ret (Loaded vs)
    | None => ret FailedToLoad
    end
  else ret NoSavedIndex.

(** The lines shown under "Sources:", each as a bullet: nothing for an
    empty value, else the stripped non-blank lines of the value. *)
Definition source_bullets (sources : string) : list string :=
  if decide (sources = EmptyString) then []
  else
    map Py.strip
      (filter (fun source => Py.strip source <> EmptyString)
         (Py.split_from Py.nl 0 EmptyString sources)).

End Script.
End App.

(** A string made of white space only. *)
Fixpoint blank (s : string) : bool :=
  match s with
  | EmptyString => true
  | String c rest => Py.isspace c && blank rest
  end.

(** A string without a newline. *)
Fixpoint one_line (s : string) : bool :=
  match s with
  | EmptyString => true
  | String c rest => negb (Ascii.eqb c (ascii_of_nat 10)) && one_line rest
  end.

(** ** Notions used in the statements *)

(** The questions of the retrievals, the paths of the saves and the URLs of
    the fetches recorded in a trace. *)
Definition retrievals (l : list Event) : list string :=
  omap (fun e => match e with EvRetrieve q => Some q | _ => None end) l.

Definition saves (l : list Event) : list string :=
  omap (fun e => match e with EvSaveLocal p => Some p | _ => None end) l.

Definition fetches (l : list Event) : list string :=
  omap (fun e => match e with EvFetch u => Some u | _ => None end) l.

(** The source identifiers carried by a list of chunks, chunk by chunk. *)
Definition source_ids (docs : list Document) : list string :=
  omap (fun d => metadata d !! "source") docs.

(** The distinct elements of a list in the order of their first
    occurrences: an element is kept unless it occurred before. *)
Fixpoint first_occurrences (earlier l : list string) : list string :=
  match l with
  | [] => []
  | x :: rest =>
      if decide (x ∈ earlier) then first_occurrences earlier rest
      else x :: first_occurrences (earlier ++ [x]) rest
  end.

(** The two artifacts of a stored index, and their being well formed. *)
Definition has_vector_file (s : State) (folder : string) : bool :=
  match fs s !! Faiss.index_file folder with
  | Some (File _) => true
  | _ => false
  end.

Definition has_metadata_file (s : State) (folder : string) : bool :=
  match fs s !! Faiss.pickle_file folder with
  | Some (File _) => true
  | _ => false
  end.






(** Every source identifier the document carries is one of [urls]. *)
Definition labelled_from (urls : list string) (d : Document) : Prop :=
  forall x, metadata d !! "source" = Some x -> x ∈ urls.



Section Notions.
Context `{Services}.

(** The [embeddings] attribute is unset or holds the configured client:
    [_initialize_embeddings] is its only writer. *)
Definition attribute_ok (s : State) : Prop :=
  embeddings s = None \/
  embeddings s = Some DocumentProcessor.configured_embeddings.

(** What a retrieval returns when the embedding call is number [t]. *)
Definition retrieved (r : Faiss.VectorStoreRetriever) (question : string)
  (t : nat) : outcome (list Document) :=
  match embed_api (embedding_function (Faiss.vectorstore r)) t [question] with
  | Raise e => Raise e
  | Ok [] => Raise IndexError
  | Ok (v :: _) =>
      match Faiss.fetch_rows (Faiss.vectorstore r)
              (index_search (index (Faiss.vectorstore r)) v
                 (Faiss.search_k r)) with
      | Raise e => Raise e
      | Ok docs => Ok (take (Faiss.search_k r) docs)
      end
  end.

(** The state after a retrieval. *)
Definition after_retrieval (question : string) (s : State) : State :=
  {| fs := fs s; tick := S (tick s);
     log := log s ++ [EvRetrieve question; EvEmbed [question]];
     embeddings := embeddings s |}.

(** The documents of the pages that could be fetched, in the order of the
    URLs, the first fetch being call number [t]. *)
Fixpoint fetched_documents (t : nat) (urls : list string) : list Document :=
  match urls with
  | [] => []
  | url :: rest =>
      match partition t url with
      | Ok elements =>
          mkDocument (Py.join (Py.nl +:+ Py.nl) elements)
            {[ "source" := url ]} :: fetched_documents (S t) rest
      | Raise _ => fetched_documents (S t) rest
      end
  end.

(** The pipeline as the composition of its three stages and the optional
    save, with the state passed by hand. *)
Definition pipeline (self : DocumentProcessor.t) (urls : list string)
  (save_index : bool) (s : State) : State * outcome (FAISS * nat * nat) :=
  match DocumentProcessor.load_urls urls s with
  | (s1, Raise e) => (s1, Raise e)
  | (s1, Ok documents) =>
      match DocumentProcessor.split_documents self documents s1 with
      | (s2, Raise e) => (s2, Raise e)
      | (s2, Ok chunks) =>
          match DocumentProcessor.create_vectorstore chunks s2 with
          | (s3, Raise e) => (s3, Raise e)
          | (s3, Ok vectorstore) =>
              let result := (vectorstore, length documents, length chunks) in
              if save_index
              then
                match DocumentProcessor.save_vectorstore vectorstore None s3
                with
                | (s4, Raise e) => (s4, Raise e)
                | (s4, Ok _) => (s4, Ok result)
                end
              else (s3, Ok result)
          end
      end
  end.

End Notions.

(** ** Sample services and sample data *)

Module Sample.

Definition vec_of (text : string) : Vec := [Z.of_nat (String.length text)].

(** [k] rows in index order, padded with [-1]. *)
Definition first_rows (rows : list Vec) (k : nat) : list Z :=
  map Z.of_nat (seq 0 (Nat.min k (length rows)))
  ++ repeat (-1)%Z (k - length rows).

(** A well-behaved world: every page but ["http://down"] can be fetched. *)
#[local] Instance steady : Services := {|
  GITHUB_TOKEN := Some "token";
  partition := fun _ url =>
    if decide (url = "http://down") then Raise (ServiceError "unreachable")
    else Ok ["Title of " +:+ url; "Body."];
  embed_api := fun _ _ texts => Ok (map vec_of texts);
  chat_api := fun _ _ _ => Ok "I don't know.";
  index_search := fun rows _ k => first_rows rows k;
  uuid4 := fun t j => pretty t +:+ "-" +:+ pretty j
|}.

(** A world whose embedding endpoint answers differently from call to
    call, and whose search returns the row the query vector names. *)
#[local] Instance drifting : Services := {|
  GITHUB_TOKEN := Some "token";
  partition := fun _ url => Ok [url];
  embed_api := fun _ t texts => Ok (map (fun _ => [Z.of_nat t]) texts);
  chat_api := fun _ _ _ => Ok "An answer.";
  index_search := fun _ v k =>
    match v with
    | x :: _ => x :: repeat (-1)%Z (k - 1)
    | [] => repeat (-1)%Z k
    end;
  uuid4 := fun t j => pretty t +:+ "-" +:+ pretty j
|}.

Definition empty_state : State :=
  {| fs := ∅; tick := 0; log := []; embeddings := None |}.

Definition doc (text source : string) : Document :=
  mkDocument text {[ "source" := source ]}.

Definition plain (text : string) : Document := mkDocument text ∅.

Definition store_of `{Services} (docs : list Document) : FAISS :=
  {| embedding_function := DocumentProcessor.configured_embeddings;
     index := map (fun d => vec_of (page_content d)) docs;
     docstore := list_to_map
                   (zip (map pretty (seq 0 (length docs))) docs);
     index_to_docstore_id :=
       list_to_map (zip (seq 0 (length docs))
                      (map pretty (seq 0 (length docs)))) |}.

(** Four chunks whose sources are A, B, A, C. *)
Definition abac : list Document :=
  [doc "one" "A"; doc "two" "B"; doc "three" "A"; doc "four" "C"].

(** The chain that [QAChain(vectorstore)] builds over a store. *)
Definition steady_chain : QAChain.t :=
  QAChain.init (H:=steady) (store_of (H:=steady) abac).
Definition drifting_chain : QAChain.t :=
  QAChain.init (H:=drifting) (store_of (H:=drifting) abac).
Definition plain_chain : QAChain.t :=
  QAChain.init (H:=steady) (store_of (H:=steady) [plain "one"; plain "two"]).

(** A disk with a folder that holds the vector file only. *)
Definition half_written : State :=
  {| fs := <[ "idx" := Dir ]>
             (<[ Faiss.index_file "idx" := File (FaissIndexFile [[1%Z]]) ]> ∅);
     tick := 0; log := []; embeddings := None |}.

Definition splitter (size overlap : Z)
  : Splitter.RecursiveCharacterTextSplitter :=
  Splitter.mkSplitter size overlap Splitter.default_separators.

(** The processor that [__init__] builds from [config.py]. *)
Definition processor : DocumentProcessor.t :=
  DocumentProcessor.mkProcessor
    (splitter Config.CHUNK_SIZE Config.CHUNK_OVERLAP).

End Sample.

(** * Properties *)

(** ** The loop that collects the sources *)

Section Sources.

Lemma first_occurrences_fresh earlier l x :
  x ∈ first_occurrences earlier l -> x ∉ earlier.
Proof.
  revert earlier. induction l as [|y l IH]; intros earlier; simpl.
  - intros Hx. inversion Hx.
  - destruct (decide (y ∈ earlier)) as [Hy|Hy].
    + apply IH.
    + intros [->|Hx]%elem_of_cons; [assumption|].
      apply IH in Hx. intros Hin. apply Hx, elem_of_app. now left.
Qed.

Lemma first_occurrences_NoDup earlier l :
  NoDup (first_occurrences earlier l).
Proof.
  revert earlier. induction l as [|y l IH]; intros earlier; simpl.
  - constructor.
  - destruct (decide (y ∈ earlier)); [apply IH|].
    constructor; [|apply IH].
    intros Hin%first_occurrences_fresh. apply Hin, elem_of_app.
    right. now apply list_elem_of_singleton.
Qed.

Lemma first_occurrences_elem earlier l x :
  x ∈ first_occurrences earlier l <-> x ∈ l /\ x ∉ earlier.
Proof.
  revert earlier. induction l as [|y l IH]; intros earlier; simpl.
  - split; [intros Hx; inversion Hx | intros [Hx _]; inversion Hx].
  - destruct (decide (y ∈ earlier)) as [Hy|Hy].
    + rewrite IH, elem_of_cons. split; [tauto|].
      intros [[->|Hx] Hn]; [contradiction | tauto].
    + rewrite elem_of_cons, IH, elem_of_cons, elem_of_app,
        list_elem_of_singleton.
      destruct (decide (x = y)) as [->|Hne]; [tauto|]. tauto.
Qed.

(** The loop of the source computes the first occurrences, whatever it has
    already collected, as long as its set mirrors its list. *)
Lemma collect_fold docs : forall (sources : list string) (seen : gset string),
  (forall x, x ∈ seen <-> x ∈ sources) ->
  fst (fold_left QAChain.collect docs (sources, seen))
  = sources ++ first_occurrences sources (source_ids docs).
Proof.
  induction docs as [|d docs IH]; intros sources seen Hseen; simpl.
  - now rewrite app_nil_r.
  - unfold source_ids; simpl. fold (source_ids docs).
    destruct (metadata d !! "source") as [src|] eqn:Hsrc; simpl.
    + destruct (decide (src ∈ seen)) as [Hin|Hin];
        destruct (decide (src ∈ sources)) as [Hin'|Hin'];
        try (exfalso; apply Hseen in Hin; contradiction);
        try (exfalso; apply Hseen in Hin'; contradiction).
      * now apply IH.
      * rewrite IH.
        -- now rewrite <- app_assoc.
        -- intros x. rewrite elem_of_union, elem_of_singleton, elem_of_app,
             list_elem_of_singleton, Hseen. tauto.
    + now apply IH.
Qed.

Lemma unique_sources_first_occurrences docs :
  QAChain.unique_sources docs = first_occurrences [] (source_ids docs).
Proof.
  unfold QAChain.unique_sources. rewrite collect_fold; [reflexivity|].
  intros x. split; intros Hx.
  - now apply not_elem_of_empty in Hx.
  - inversion Hx.
Qed.

Lemma source_ids_none docs :
  Forall (fun d => metadata d !! "source" = None) docs ->
  source_ids docs = [].
Proof.
  induction 1 as [|d docs Hd _ IH]; [reflexivity|].
  unfold source_ids in *; simpl. now rewrite Hd.
Qed.

End Sources.

(** ** Runs of the question-answering chain *)

Section Chain.
Context `{Services}.

(** A retrieval always advances the state in the same way; its result
    depends on the state through the call counter only. *)
Lemma invoke_run r question s :
  Faiss.invoke r question s
  = (after_retrieval question s, retrieved r question (tick s)).
Proof.
  unfold Faiss.invoke, Faiss.similarity_search, Faiss.embed_query,
    Faiss.embed_documents, after_retrieval, retrieved, bind, emit,
    next_tick, lift, ret, raise; simpl.
  rewrite <- app_assoc; simpl.
  destruct (embed_api _ _ _) as [[|v vs]|e]; try reflexivity.
  destruct (Faiss.fetch_rows _ _); reflexivity.
Qed.

(** The anatomy of a run of [ask_with_sources] that returns. *)
Lemma ask_with_sources_run self question s s' res :
  QAChain.ask_with_sources self question s = (s', Ok res) ->
  exists docs1 docs2 answer,
    retrieved (QAChain.retriever self) question (tick s) = Ok docs1 /\
    retrieved (QAChain.retriever self) question (S (tick s)) = Ok docs2 /\
    chat_api (QAChain.llm self) (S (S (tick s)))
      (QAChain.prompt (QAChain._format_docs docs2) question) = Ok answer /\
    log s' = log s ++
      [EvRetrieve question; EvEmbed [question];
       EvRetrieve question; EvEmbed [question];
       EvChat (QAChain.prompt (QAChain._format_docs docs2) question)] /\
    fs s' = fs s /\
    res = <[ "sources" :=
               Py.Str (QAChain.render_sources (QAChain.unique_sources docs1)) ]>
            (<[ "answer" := Py.Str answer ]> ∅).
Proof.
  unfold QAChain.ask_with_sources, QAChain.ask, QAChain.chain_invoke,
    QAChain.llm_invoke, bind.
  rewrite invoke_run.
  destruct (retrieved _ question (tick s)) as [docs1|e] eqn:H1;
    [|discriminate].
  rewrite invoke_run. simpl.
  destruct (retrieved _ question (S (tick s))) as [docs2|e] eqn:H2;
    [|discriminate].
  unfold emit, next_tick, lift, ret; simpl.
  destruct (chat_api _ _ _) as [answer|e] eqn:H3; [|discriminate].
  intros [= <- <-]. exists docs1, docs2, answer; simpl.
  repeat split; try assumption.
  now rewrite <- !app_assoc.
Qed.

Lemma retrievals_app l1 l2 :
  retrievals (l1 ++ l2) = retrievals l1 ++ retrievals l2.
Proof. unfold retrievals. apply omap_app. Qed.

(** With an embedding service that answers a query the same way at every
    call, two retrievals of the same question agree. *)
Lemma retrieved_steady r question t t' :
  (forall a b, embed_api (embedding_function (Faiss.vectorstore r)) a [question]
               = embed_api (embedding_function (Faiss.vectorstore r)) b [question]) ->
  retrieved r question t = retrieved r question t'.
Proof. intros Hsame. unfold retrieved. now rewrite (Hsame t t'). Qed.

End Chain.

(** ** Claims about [ask_with_sources] *)

(** C1 (as the code has it): a run of [ask_with_sources] that returns
    performs the nearest-neighbour retrieval twice, once directly and once
    inside the chain that [ask] invokes.  The source list is derived from
    the first result, the context block handed to the language model from
    the second.  When the embedding service answers the question in the same
    way at every call, the two results are the same chunks, so that the
    sources are those of the chunks that made the context. *)
Theorem ask_with_sources_two_retrievals `{Services}
    (self : QAChain.t) (question : string) (s s' : State)
    (res : gmap string Py.value) :
  QAChain.ask_with_sources self question s = (s', Ok res) ->
  exists docs1 docs2,
    retrieved (QAChain.retriever self) question (tick s) = Ok docs1 /\
    retrieved (QAChain.retriever self) question (S (tick s)) = Ok docs2 /\
    retrievals (log s') = retrievals (log s) ++ [question; question] /\
    res !! "sources"
      = Some (Py.Str (QAChain.render_sources (QAChain.unique_sources docs1))) /\
    last (log s')
      = Some (EvChat (QAChain.prompt (QAChain._format_docs docs2) question)) /\
    ((forall a b,
        embed_api (embedding_function (Faiss.vectorstore (QAChain.retriever self)))
          a [question]
        = embed_api (embedding_function (Faiss.vectorstore (QAChain.retriever self)))
          b [question]) ->
     docs1 = docs2).
Proof.
  intros Hrun.
  destruct (ask_with_sources_run _ _ _ _ _ Hrun)
    as (docs1 & docs2 & answer & H1 & H2 & _ & Hlog & _ & ->).
  exists docs1, docs2.
  split; [exact H1|]. split; [exact H2|].
  split; [|split; [|split]].
  - rewrite Hlog, retrievals_app. reflexivity.
  - apply lookup_insert_eq.
  - rewrite Hlog. now rewrite last_app.
  - intros Hsame.
    rewrite (retrieved_steady _ _ _ (S (tick s)) Hsame) in H1.
    congruence.
Qed.

(** In the steady sample world the two retrievals of a run agree. *)
Lemma ask_with_sources_two_retrievals_witness :
  exists docs1 docs2,
    retrieved (H:=Sample.steady)
      (QAChain.retriever Sample.steady_chain) "q" 0 = Ok docs1 /\
    retrieved (H:=Sample.steady)
      (QAChain.retriever Sample.steady_chain) "q" 1 = Ok docs2 /\
    docs1 = docs2.
Proof.
  destruct (ask_with_sources_two_retrievals (H:=Sample.steady)
              Sample.steady_chain "q" Sample.empty_state
              _ _ eq_refl)
    as (docs1 & docs2 & H1 & H2 & _ & _ & _ & Hsame).
  exists docs1, docs2. repeat split; try assumption.
  apply Hsame. intros a b. reflexivity.
Defined.

(** C1 (as stated) fails: in a world whose embedding endpoint drifts between
    calls, one question triggers two retrievals; the context block is the
    text of one chunk and the reported source belongs to another. *)
Lemma ask_with_sources_retrieves_once_counterexample :
  exists s' res,
    QAChain.ask_with_sources (H:=Sample.drifting)
      Sample.drifting_chain "q" Sample.empty_state = (s', Ok res) /\
    retrievals (log s') = ["q"; "q"] /\
    retrievals (log s') <> ["q"] /\
    last (log s') = Some (EvChat (QAChain.prompt "two" "q")) /\
    res !! "sources" = Some (Py.Str "A") /\
    source_ids [Sample.doc "two" "B"] = ["B"].
Proof.
  eexists _, _. split; [vm_compute; reflexivity|].
  repeat split; try reflexivity. discriminate.
Qed.

(** C3 (as the code has it): the [sources] entry of the result is one
    string, not a list.  It is made of the distinct source identifiers of the
    retrieved chunks, without duplicates and in the order of their first
    occurrences, joined by newlines; when there is none, it is the sentence
    "No sources available". *)
Theorem ask_with_sources_sources_joined `{Services}
    (self : QAChain.t) (question : string) (s s' : State)
    (res : gmap string Py.value) :
  QAChain.ask_with_sources self question s = (s', Ok res) ->
  exists docs ids,
    retrieved (QAChain.retriever self) question (tick s) = Ok docs /\
    ids = first_occurrences [] (source_ids docs) /\
    NoDup ids /\
    (forall x, x ∈ ids <-> x ∈ source_ids docs) /\
    res !! "sources"
      = Some (Py.Str (match ids with
                      | [] => "No sources available"
                      | _ => Py.join Py.nl ids
                      end)).
Proof.
  intros Hrun.
  destruct (ask_with_sources_run _ _ _ _ _ Hrun)
    as (docs1 & docs2 & answer & H1 & _ & _ & _ & _ & ->).
  exists docs1, (first_occurrences [] (source_ids docs1)).
  split; [exact H1|]. split; [reflexivity|].
  split; [apply first_occurrences_NoDup|]. split.
  - intros x. rewrite first_occurrences_elem. split; [tauto|].
    intros Hx. split; [assumption|]. intros Hin. inversion Hin.
  - rewrite lookup_insert_eq, unique_sources_first_occurrences. reflexivity.
Qed.

(** In the steady sample world the three retrieved chunks have the sources A,
    B and A, and the entry is A and B on two lines. *)
Lemma ask_with_sources_sources_joined_witness :
  exists s' res,
    QAChain.ask_with_sources (H:=Sample.steady) Sample.steady_chain "q"
      Sample.empty_state = (s', Ok res) /\
    res !! "sources" = Some (Py.Str (Py.join Py.nl ["A"; "B"])).
Proof.
  eexists _, _. split; [vm_compute; reflexivity|].
  destruct (ask_with_sources_sources_joined (H:=Sample.steady)
              Sample.steady_chain "q" Sample.empty_state _ _ eq_refl)
    as (docs & ids & Hdocs & -> & _ & _ & Hres).
  vm_compute in Hdocs. injection Hdocs as <-. exact Hres.
Defined.

(** C3 (as stated) fails: the loop run on chunks whose sources are A, B, A
    and C yields A, B and C, and the entry made of them is the string with
    A, B and C on three lines; in a run, where three chunks are retrieved
    (sources A, B, A), the [sources] entry is the string with A and B on two
    lines, not the list of the two identifiers. *)
Lemma ask_with_sources_sources_list_counterexample :
  source_ids Sample.abac = ["A"; "B"; "A"; "C"] /\
  QAChain.render_sources (QAChain.unique_sources Sample.abac)
    = "A" +:+ Py.nl +:+ "B" +:+ Py.nl +:+ "C" /\
  exists s' res docs,
    QAChain.ask_with_sources (H:=Sample.steady) Sample.steady_chain "q"
      Sample.empty_state = (s', Ok res) /\
    retrieved (H:=Sample.steady) (QAChain.retriever Sample.steady_chain) "q" 0
      = Ok docs /\
    source_ids docs = ["A"; "B"; "A"] /\
    res !! "sources" = Some (Py.Str ("A" +:+ Py.nl +:+ "B")) /\
    res !! "sources" <> Some (Py.StrList ["A"; "B"]).
Proof.
  split; [reflexivity|]. split; [reflexivity|].
  eexists _, _, _. split; [vm_compute; reflexivity|].
  split; [vm_compute; reflexivity|].
  split; [reflexivity|]. split; [reflexivity|]. discriminate.
Qed.

(** C6: when none of the retrieved chunks carries a source identifier, the
    [sources] entry is the sentence "No sources available": it is neither
    the empty list nor the empty string that joining no source would give. *)
Theorem ask_with_sources_no_sources `{Services}
    (self : QAChain.t) (question : string) (s s' : State)
    (res : gmap string Py.value) (docs : list Document) :
  retrieved (QAChain.retriever self) question (tick s) = Ok docs ->
  Forall (fun d => metadata d !! "source" = None) docs ->
  QAChain.ask_with_sources self question s = (s', Ok res) ->
  res !! "sources" = Some (Py.Str "No sources available") /\
  res !! "sources" <> Some (Py.StrList []) /\
  res !! "sources" <> Some (Py.Str (Py.join Py.nl [])).
Proof.
  intros Hdocs Hnone Hrun.
  destruct (ask_with_sources_run _ _ _ _ _ Hrun)
    as (docs1 & docs2 & answer & H1 & _ & _ & _ & _ & ->).
  assert (docs1 = docs) as -> by congruence.
  rewrite lookup_insert_eq, unique_sources_first_occurrences,
    (source_ids_none _ Hnone); simpl.
  repeat split; discriminate.
Qed.

(** A store of chunks without metadata gives the sentinel sentence. *)
Lemma ask_with_sources_no_sources_witness :
  exists s' res,
    QAChain.ask_with_sources (H:=Sample.steady) Sample.plain_chain "q"
      Sample.empty_state = (s', Ok res) /\
    res !! "sources" = Some (Py.Str "No sources available").
Proof.
  eexists _, _. split; [vm_compute; reflexivity|].
  refine (proj1 (ask_with_sources_no_sources (H:=Sample.steady)
                   Sample.plain_chain "q" Sample.empty_state _ _
                   [Sample.plain "one"; Sample.plain "two"] _ _ _)).
  - vm_compute. reflexivity.
  - repeat constructor.
  - vm_compute. reflexivity.
Defined.

(** ** The stored index *)

Section Storage.
Context `{Services}.






(** The test of [index_exists] amounts to the path being a directory. *)
Lemma index_exists_run fp s :
  DocumentProcessor.index_exists fp s
  = (s, Ok (DocumentProcessor.path_isdir s
              (match fp with
               | None => DocumentProcessor.default_path
               | Some p => p
               end))).
Proof.
  unfold DocumentProcessor.index_exists, DocumentProcessor.path_exists,
    DocumentProcessor.path_isdir, bind, get, ret.
  destruct (fs s !! _) as [[|]|]; reflexivity.
Qed.

(** A save that returns has left the folder and its two files behind. *)
Lemma save_local_ok vs folder s s1 :
  Faiss.save_local vs folder s = (s1, Ok tt) ->
  fs s1 = <[ Faiss.pickle_file folder :=
               File (PickleFile (docstore vs) (index_to_docstore_id vs)) ]>
            (<[ Faiss.index_file folder := File (FaissIndexFile (index vs)) ]>
               (<[ folder := Dir ]> (fs s))) /\
  tick s1 = tick s /\
  log s1 = log s ++ [EvSaveLocal folder] /\
  embeddings s1 = embeddings s.
Proof.
  unfold Faiss.save_local, bind, emit, get, set_fs, raise; simpl.
  repeat match goal with
         | |- context [match ?x with _ => _ end] =>
             match type of x with
             | option node => destruct x as [[|]|] eqn:?
             end
         end;
    intros [= <-]; simpl; auto.
Qed.


(** The client [_initialize_embeddings] returns, and the state it leaves. *)
Lemma initialize_embeddings_run s :
  attribute_ok s ->
  DocumentProcessor._initialize_embeddings s
  = ({| fs := fs s; tick := tick s; log := log s;
        embeddings := Some DocumentProcessor.configured_embeddings |},
     Ok DocumentProcessor.configured_embeddings).
Proof.
  unfold DocumentProcessor._initialize_embeddings, bind, get, set_embeddings,
    ret.
  intros [Hnone|Hsome].
  - now rewrite Hnone.
  - rewrite Hsome. destruct s; simpl in *. now subst.
Qed.

(** Loading from a directory: the outcome is decided by the two files. *)
Lemma load_vectorstore_dir folder s :
  attribute_ok s ->
  fs s !! folder = Some Dir ->
  DocumentProcessor.load_vectorstore (Some folder) s
  = ({| fs := fs s; tick := tick s; log := log s ++ [EvLoadLocal folder];
        embeddings := Some DocumentProcessor.configured_embeddings |},
     match fs s !! Faiss.index_file folder with
     | Some (File (FaissIndexFile rows)) =>
         match fs s !! Faiss.pickle_file folder with
         | Some (File (PickleFile ds ids)) =>
             Ok (Some {| embedding_function :=
                           DocumentProcessor.configured_embeddings;
                         index := rows; docstore := ds;
                         index_to_docstore_id := ids |})
         | Some (File _) => Raise (UnpicklingError (Faiss.pickle_file folder))
         | Some Dir => Raise (IsADirectoryError (Faiss.pickle_file folder))
         | None => Raise (FileNotFoundError (Faiss.pickle_file folder))
         end
     | _ => Raise (RuntimeError "could not read the index")
     end).
Proof.
  intros Hok Hdir.
  unfold DocumentProcessor.load_vectorstore, bind.
  rewrite index_exists_run. unfold DocumentProcessor.path_isdir.
  rewrite Hdir, (initialize_embeddings_run _ Hok).
  unfold Faiss.load_local, bind, emit, get, ret, raise; simpl.
  destruct (fs s !! Faiss.index_file folder) as [[[| |]|]|]; try reflexivity.
  destruct (fs s !! Faiss.pickle_file folder) as [[[| |]|]|]; reflexivity.
Qed.

Lemma load_vectorstore_not_dir folder s :
  DocumentProcessor.path_isdir s folder = false ->
  DocumentProcessor.load_vectorstore (Some folder) s = (s, Ok None).
Proof.
  intros Hdir. unfold DocumentProcessor.load_vectorstore, bind.
  rewrite index_exists_run, Hdir. reflexivity.
Qed.

(** Every store that [create_vectorstore] builds carries the configured
    embedding client, and the attribute stays as it should. *)
Lemma create_vectorstore_configured chunks s s' vs :
  attribute_ok s ->
  DocumentProcessor.create_vectorstore chunks s = (s', Ok vs) ->
  embedding_function vs = DocumentProcessor.configured_embeddings /\
  attribute_ok s'.
Proof.
  intros Hok. unfold DocumentProcessor.create_vectorstore, bind.
  rewrite (initialize_embeddings_run _ Hok).
  unfold Faiss.from_documents, Faiss.embed_documents, bind, emit, next_tick,
    lift, ret, raise; simpl.
  destruct (embed_api _ _ _) as [[|v vectors]|err]; try discriminate.
  destruct (negb (Nat.eqb _ _)); try discriminate.
  simpl. destruct (negb (bool_decide _)); try discriminate.
  intros [= <- <-]. split; [reflexivity | right; reflexivity].
Qed.

(** So does every store that [load_vectorstore] restores. *)
Lemma load_vectorstore_configured fp s s' vs :
  attribute_ok s ->
  DocumentProcessor.load_vectorstore fp s = (s', Ok (Some vs)) ->
  embedding_function vs = DocumentProcessor.configured_embeddings /\
  attribute_ok s'.
Proof.
  intros Hok.
  change (DocumentProcessor.load_vectorstore fp)
    with (DocumentProcessor.load_vectorstore
            (Some match fp with
                  | None => DocumentProcessor.default_path
                  | Some p => p
                  end)).
  set (folder := match fp with
                 | None => DocumentProcessor.default_path
                 | Some p => p
                 end).
  destruct (fs s !! folder) as [[|]|] eqn:Hnode.
  - rewrite load_vectorstore_not_dir; [discriminate|].
    unfold DocumentProcessor.path_isdir. now rewrite Hnode.
  - rewrite (load_vectorstore_dir _ _ Hok Hnode).
    destruct (fs s !! Faiss.index_file folder) as [[[| |]|]|];
      try discriminate.
    destruct (fs s !! Faiss.pickle_file folder) as [[[| |]|]|];
      try discriminate.
    intros [= <- <-]. split; [reflexivity | right; reflexivity].
  - rewrite load_vectorstore_not_dir; [discriminate|].
    unfold DocumentProcessor.path_isdir. now rewrite Hnode.
Qed.

End Storage.

(** ** Claims about the stored index *)

(** C2 (as the code has it): [index_exists] returns true exactly when the
    path exists and is a directory, whatever the directory holds.  It is
    false for a path with no data, and true for a folder that holds both,
    one or none of the two artifacts. *)
Theorem index_exists_directory (path : string) (s : State) :
  exists b,
    DocumentProcessor.index_exists (Some path) s = (s, Ok b) /\
    (b = true <-> fs s !! path = Some Dir) /\
    (fs s !! path = None -> b = false).
Proof.
  exists (DocumentProcessor.path_isdir s path).
  split; [apply index_exists_run|].
  unfold DocumentProcessor.path_isdir.
  destruct (fs s !! path) as [[|]|]; split; try split; congruence.
Qed.

(** C2 (as stated) fails: a folder that holds the vector file and no
    metadata file is reported as an existing index. *)
Lemma index_exists_half_written_counterexample :
  DocumentProcessor.index_exists (Some "idx") Sample.half_written
    = (Sample.half_written, Ok true) /\
  has_vector_file Sample.half_written "idx" = true /\
  has_metadata_file Sample.half_written "idx" = false.
Proof. repeat split; vm_compute; reflexivity. Qed.







(** ** Runs of the ingestion pipeline *)

Section Ingestion.
Context `{Services}.

Lemma fetches_app l1 l2 : fetches (l1 ++ l2) = fetches l1 ++ fetches l2.
Proof. unfold fetches. apply omap_app. Qed.

Lemma saves_app l1 l2 : saves (l1 ++ l2) = saves l1 ++ saves l2.
Proof. unfold saves. apply omap_app. Qed.

Lemma fetches_fetch urls : fetches (map EvFetch urls) = urls.
Proof.
  induction urls as [|u urls IH]; [reflexivity|].
  change (fetches (map EvFetch (u :: urls)))
    with (u :: fetches (map EvFetch urls)).
  now rewrite IH.
Qed.

Lemma saves_fetch urls : saves (map EvFetch urls) = [].
Proof. induction urls as [|u urls IH]; [reflexivity|]. exact IH. Qed.

(** The loop of the loader with [continue_on_failure] set: one fetch per
    URL, in order; it cannot raise. *)
Lemma load_from_run urls : forall docs s,
  UrlLoader.load_from true urls docs s
  = ({| fs := fs s; tick := tick s + length urls;
        log := log s ++ map EvFetch urls; embeddings := embeddings s |},
     Ok (docs ++ fetched_documents (tick s) urls)).
Proof.
  induction urls as [|url urls IH]; intros docs s; simpl.
  - unfold ret. rewrite !app_nil_r, Nat.add_0_r. now destruct s.
  - unfold bind, emit, next_tick; simpl.
    destruct (partition (tick s) url) as [elements|e]; rewrite IH; simpl;
      rewrite <- ?app_assoc, Nat.add_succ_r; reflexivity.
Qed.

Lemma load_urls_run urls s :
  DocumentProcessor.load_urls urls s
  = ({| fs := fs s; tick := tick s + length urls;
        log := log s ++ map EvFetch urls; embeddings := embeddings s |},
     Ok (fetched_documents (tick s) urls)).
Proof.
  unfold DocumentProcessor.load_urls, UrlLoader.load, UrlLoader.new, bind, ret;
    simpl.
  now rewrite load_from_run.
Qed.

Lemma split_documents_run self documents s :
  DocumentProcessor.split_documents self documents s
  = (s, Splitter.split_documents (DocumentProcessor.text_splitter self)
          documents).
Proof.
  unfold DocumentProcessor.split_documents, bind, lift, ret.
  destruct (Splitter.split_documents _ _); reflexivity.
Qed.

(** Building the store makes one embedding call and leaves the disk alone,
    whether it returns or raises. *)
Lemma create_vectorstore_trace chunks s s' o :
  DocumentProcessor.create_vectorstore chunks s = (s', o) ->
  log s' = log s ++ [EvEmbed (map page_content chunks)] /\ fs s' = fs s.
Proof.
  unfold DocumentProcessor.create_vectorstore,
    DocumentProcessor._initialize_embeddings, Faiss.from_documents,
    Faiss.embed_documents, bind, get, set_embeddings, emit, next_tick, lift,
    ret, raise.
  destruct (embeddings s) as [e|]; simpl;
    destruct (embed_api _ _ _) as [[|v vectors]|err];
    try (intros [= <- <-]; simpl; auto; fail);
    destruct (negb (Nat.eqb _ _));
    try (intros [= <- <-]; simpl; auto; fail);
    simpl; destruct (negb (bool_decide _));
    intros [= <- <-]; simpl; auto.
Qed.

Lemma process_urls_pipeline self urls save_index s :
  DocumentProcessor.process_urls self urls save_index s
  = pipeline self urls save_index s.
Proof.
  unfold DocumentProcessor.process_urls, pipeline, bind.
  destruct (DocumentProcessor.load_urls urls s) as [s1 [documents|e]];
    [|reflexivity].
  destruct (DocumentProcessor.split_documents self documents s1)
    as [s2 [chunks|e]]; [|reflexivity].
  destruct (DocumentProcessor.create_vectorstore chunks s2)
    as [s3 [vectorstore|e]]; [|reflexivity].
  destruct save_index; [|reflexivity].
  destruct (DocumentProcessor.save_vectorstore vectorstore None s3)
    as [s4 [[]|e]]; reflexivity.
Qed.

End Ingestion.

(** ** Claims about the ingestion pipeline *)

(** C8 (as the code has it): [load_urls] hands the batch to the loader
    once, with the loader's defaults.  Every URL is fetched once, in order
    and without retry, and the call never raises on account of a URL: a page
    that is unreachable or unparseable is skipped, and the documents of the
    other pages are returned in order, a list that may be partial or
    empty. *)
Theorem load_urls_skips_failures `{Services} (urls : list string) (s : State) :
  exists s',
    DocumentProcessor.load_urls urls s
      = (s', Ok (fetched_documents (tick s) urls)) /\
    fetches (log s') = fetches (log s) ++ urls /\
    fs s' = fs s.
Proof.
  rewrite load_urls_run. eexists. split; [reflexivity|]. simpl.
  now rewrite fetches_app, fetches_fetch.
Qed.

(** C8 (as stated) fails: with an unreachable URL in the batch the call
    raises nothing and returns the documents of the two other URLs. *)
Lemma load_urls_raises_counterexample :
  partition (Services:=Sample.steady) 1 "http://down"
    = Raise (ServiceError "unreachable") /\
  exists s' d1 d2,
    DocumentProcessor.load_urls (H:=Sample.steady)
      ["http://a"; "http://down"; "http://b"] Sample.empty_state
      = (s', Ok [d1; d2]) /\
    metadata d1 !! "source" = Some "http://a" /\
    metadata d2 !! "source" = Some "http://b" /\
    fetches (log s') = ["http://a"; "http://down"; "http://b"].
Proof.
  split; [reflexivity|].
  eexists _, _, _. split; [vm_compute; reflexivity|].
  repeat split; reflexivity.
Qed.

(** C10: [process_urls] is the composition of [load_urls],
    [split_documents] and [create_vectorstore], in that order, followed by
    the save when it is asked for.  When it returns, the document count is
    the length of the loaded list, the chunk count the length of the list
    split from those documents, the store the one built from those chunks,
    and the index has been saved exactly when [save_index] is true. *)
Theorem process_urls_composition `{Services}
    (self : DocumentProcessor.t) (urls : list string) (save_index : bool)
    (s : State) :
  DocumentProcessor.process_urls self urls save_index s
    = pipeline self urls save_index s /\
  forall s' vectorstore num_documents num_chunks,
    DocumentProcessor.process_urls self urls save_index s
      = (s', Ok (vectorstore, num_documents, num_chunks)) ->
    exists s1 s2 s3 documents chunks,
      DocumentProcessor.load_urls urls s = (s1, Ok documents) /\
      DocumentProcessor.split_documents self documents s1 = (s2, Ok chunks) /\
      DocumentProcessor.create_vectorstore chunks s2 = (s3, Ok vectorstore) /\
      num_documents = length documents /\
      num_chunks = length chunks /\
      saves (log s')
        = saves (log s)
          ++ (if save_index then [DocumentProcessor.default_path] else []) /\
      (save_index = true ->
       DocumentProcessor.save_vectorstore vectorstore None s3 = (s', Ok tt)) /\
      (save_index = false -> s' = s3).
Proof.
  split; [apply process_urls_pipeline|].
  intros s' vectorstore num_documents num_chunks.
  rewrite process_urls_pipeline. unfold pipeline.
  rewrite load_urls_run.
  set (s1 := {| fs := fs s; tick := tick s + length urls;
                log := log s ++ map EvFetch urls;
                embeddings := embeddings s |}).
  rewrite split_documents_run.
  destruct (Splitter.split_documents _ _) as [chunks|e] eqn:Hsplit;
    [|discriminate].
  destruct (DocumentProcessor.create_vectorstore chunks s1)
    as [s3 [vs|e]] eqn:Hcreate; [|discriminate].
  destruct (create_vectorstore_trace _ _ _ _ Hcreate) as (Hlog3 & _).
  assert (saves (log s3) = saves (log s)) as Hsaves3.
  { rewrite Hlog3. subst s1; simpl.
    rewrite !saves_app, saves_fetch. simpl. now rewrite !app_nil_r. }
  destruct save_index.
  - destruct (DocumentProcessor.save_vectorstore vs None s3)
      as [s4 [[]|e]] eqn:Hsave; [|discriminate].
    intros [= <- <- <- <-].
    exists s1, s1, s3, (fetched_documents (tick s) urls), chunks.
    split; [reflexivity|].
    split; [now rewrite split_documents_run, Hsplit|].
    do 3 (split; [reflexivity || assumption|]).
    split; [|split; [intros _; exact Hsave | discriminate]].
    unfold DocumentProcessor.save_vectorstore in Hsave.
    apply save_local_ok in Hsave as (_ & _ & Hlog4 & _).
    rewrite Hlog4, saves_app, Hsaves3. reflexivity.
  - intros [= <- <- <- <-].
    exists s1, s1, s3, (fetched_documents (tick s) urls), chunks.
    split; [reflexivity|].
    split; [now rewrite split_documents_run, Hsplit|].
    do 3 (split; [reflexivity || assumption|]).
    split; [|split; [discriminate | reflexivity]].
    now rewrite Hsaves3, app_nil_r.
Qed.

(** The pipeline over two URLs, one of them down, with the save. *)
Lemma process_urls_composition_witness :
  exists s' vectorstore num_documents num_chunks,
    DocumentProcessor.process_urls (H:=Sample.steady) Sample.processor
      ["http://a"; "http://down"] true Sample.empty_state
      = (s', Ok (vectorstore, num_documents, num_chunks)) /\
    saves (log s') = [DocumentProcessor.default_path].
Proof.
  destruct (DocumentProcessor.process_urls (H:=Sample.steady) Sample.processor
              ["http://a"; "http://down"] true Sample.empty_state)
    as [s' [[[vs nd] nc]|e]] eqn:Hrun.
  - destruct (proj2 (process_urls_composition (H:=Sample.steady)
                       Sample.processor ["http://a"; "http://down"] true
                       Sample.empty_state) _ _ _ _ Hrun)
      as (s1 & s2 & s3 & documents & chunks & _ & _ & _ & _ & _ & Hsaves & _).
    exists s', vs, nd, nc. split; [reflexivity | exact Hsaves].
  - vm_compute in Hrun. discriminate.
Defined.

(** ** The splitter *)

Section Splitting.
Variable sp : Splitter.RecursiveCharacterTextSplitter.
Hypothesis size_pos : (0 < Splitter.chunk_size sp)%Z.
Hypothesis overlap_nonneg : (0 <= Splitter.chunk_overlap sp)%Z.

Lemma lstrip_length s : String.length (Py.lstrip s) <= String.length s.
Proof.
  induction s as [|c s IH]; simpl; [lia|].
  destruct (Py.isspace c); simpl; lia.
Qed.















Hypothesis has_empty_separator : EmptyString ∈ Splitter.separators sp.



End Splitting.

(** ** Claim about the splitter *)





(** * Further properties of the ingestion service *)

Section ProcessorFacts.
Context `{Services}.

(** The trace and the bookkeeping of a save, whether it returns or raises. *)
Lemma save_local_trace vs folder s s' o :
  Faiss.save_local vs folder s = (s', o) ->
  log s' = log s ++ [EvSaveLocal folder] /\
  tick s' = tick s /\
  embeddings s' = embeddings s.
Proof.
  unfold Faiss.save_local, bind, emit, get, set_fs, raise; simpl.
  repeat match goal with
         | |- context [match ?x with _ => _ end] =>
             match type of x with
             | option node => destruct x as [[|]|] eqn:?
             end
         end;
    intros [= <- <-]; simpl; auto.
Qed.


(** What [load_vectorstore] does, in every state. *)
Lemma load_vectorstore_run fp s :
  let folder := match fp with
                | None => DocumentProcessor.default_path
                | Some p => p
                end in
  let client := match embeddings s with
                | None => DocumentProcessor.configured_embeddings
                | Some e => e
                end in
  DocumentProcessor.load_vectorstore fp s
  = if DocumentProcessor.path_isdir s folder
    then
      ({| fs := fs s; tick := tick s; log := log s ++ [EvLoadLocal folder];
          embeddings := Some client |},
       match fs s !! Faiss.index_file folder with
       | Some (File (FaissIndexFile rows)) =>
           match fs s !! Faiss.pickle_file folder with
           | Some (File (PickleFile ds ids)) =>
               Ok (Some {| embedding_function := client; index := rows;
                           docstore := ds; index_to_docstore_id := ids |})
           | Some (File _) => Raise (UnpicklingError (Faiss.pickle_file folder))
           | Some Dir => Raise (IsADirectoryError (Faiss.pickle_file folder))
           | None => Raise (FileNotFoundError (Faiss.pickle_file folder))
           end
       | _ => Raise (RuntimeError "could not read the index")
       end)
    else (s, Ok None).
Proof.
  intros folder client.
  unfold DocumentProcessor.load_vectorstore, bind.
  rewrite index_exists_run. fold folder.
  destruct (DocumentProcessor.path_isdir s folder); [|reflexivity].
  unfold DocumentProcessor._initialize_embeddings, Faiss.load_local, bind,
    get, set_embeddings, emit, ret, raise; subst client.
  destruct (embeddings s) as [e|] eqn:Hemb; simpl; rewrite ?Hemb;
    destruct (fs s !! Faiss.index_file folder) as [[[| |]|]|];
    try reflexivity;
    destruct (fs s !! Faiss.pickle_file folder) as [[[| |]|]|];
    reflexivity.
Qed.

End ProcessorFacts.


(** X2: [load_vectorstore] returns [None] exactly when the path is not a
    directory; it then leaves the whole state as it was: no load is
    attempted and no embedding client is created.  In every case the disk
    is left unchanged. *)
Theorem load_vectorstore_none_iff `{Services} (path : string) (s : State) :
  (snd (DocumentProcessor.load_vectorstore (Some path) s) = Ok None
   <-> DocumentProcessor.path_isdir s path = false) /\
  (DocumentProcessor.path_isdir s path = false ->
   DocumentProcessor.load_vectorstore (Some path) s = (s, Ok None)) /\
  fs (fst (DocumentProcessor.load_vectorstore (Some path) s)) = fs s.
Proof.
  pose proof (load_vectorstore_run (Some path) s) as Hrun. simpl in Hrun.
  rewrite Hrun.
  destruct (DocumentProcessor.path_isdir s path); simpl.
  - split; [|split; [discriminate | reflexivity]].
    split; [|discriminate].
    destruct (fs s !! Faiss.index_file path) as [[[| |]|]|];
      try discriminate.
    destruct (fs s !! Faiss.pickle_file path) as [[[| |]|]|]; discriminate.
  - repeat split; auto.
Qed.

(** X3: a regular file sitting at the path blocks the index both ways:
    [index_exists] is false and [load_vectorstore] returns [None], while
    [save_vectorstore] raises [FileExistsError] and leaves the disk as it
    was. *)
Theorem regular_file_blocks_index `{Services}
    (vs : FAISS) (path : string) (content : payload) (s : State) :
  fs s !! path = Some (File content) ->
  DocumentProcessor.index_exists (Some path) s = (s, Ok false) /\
  DocumentProcessor.load_vectorstore (Some path) s = (s, Ok None) /\
  exists s',
    DocumentProcessor.save_vectorstore vs (Some path) s
      = (s', Raise (FileExistsError path)) /\
    fs s' = fs s.
Proof.
  intros Hfile.
  assert (DocumentProcessor.path_isdir s path = false) as Hdir.
  { unfold DocumentProcessor.path_isdir. now rewrite Hfile. }
  split; [now rewrite index_exists_run, Hdir|].
  split; [now apply load_vectorstore_not_dir|].
  unfold DocumentProcessor.save_vectorstore, Faiss.save_local, bind, emit, get,
    raise; simpl.
  rewrite Hfile. eexists. split; reflexivity.
Qed.

(** A stale pickle file under the old name blocks the default path. *)
Lemma regular_file_blocks_index_witness :
  DocumentProcessor.index_exists (Some "store")
    {| fs := {[ "store" := File (OtherFile "old") ]}; tick := 0; log := [];
       embeddings := None |}
  = ({| fs := {[ "store" := File (OtherFile "old") ]}; tick := 0; log := [];
        embeddings := None |}, Ok false).
Proof.
  apply (regular_file_blocks_index (H:=Sample.steady)
           (Sample.store_of (H:=Sample.steady) Sample.abac) "store"
           (OtherFile "old")
           {| fs := {[ "store" := File (OtherFile "old") ]}; tick := 0;
              log := []; embeddings := None |}).
  reflexivity.
Defined.



Section PipelineFacts.
Context `{Services}.

Lemma fetches_embed l texts : fetches (l ++ [EvEmbed texts]) = fetches l.
Proof. rewrite fetches_app. simpl. apply app_nil_r. Qed.

Lemma fetches_save l p : fetches (l ++ [EvSaveLocal p]) = fetches l.
Proof. rewrite fetches_app. simpl. apply app_nil_r. Qed.

(** Building a store from no chunk at all raises: the index is sized from
    the first vector, and there is none. *)
Lemma create_vectorstore_empty s :
  exists s' e, DocumentProcessor.create_vectorstore [] s = (s', Raise e).
Proof.
  unfold DocumentProcessor.create_vectorstore,
    DocumentProcessor._initialize_embeddings, Faiss.from_documents,
    Faiss.embed_documents, bind, get, set_embeddings, emit, next_tick, lift,
    ret, raise.
  destruct (embeddings s) as [e|]; simpl;
    destruct (embed_api _ _ _) as [[|v vectors]|err]; simpl; eauto.
Qed.

Lemma create_vectorstore_attribute chunks s s' o :
  attribute_ok s ->
  DocumentProcessor.create_vectorstore chunks s = (s', o) ->
  attribute_ok s'.
Proof.
  intros Hok. unfold DocumentProcessor.create_vectorstore, bind.
  rewrite (initialize_embeddings_run _ Hok).
  unfold Faiss.from_documents, Faiss.embed_documents, bind, emit, next_tick,
    lift, ret, raise; simpl.
  destruct (embed_api _ _ _) as [[|v vectors]|err];
    try (intros [= <- <-]; right; reflexivity).
  destruct (negb (Nat.eqb _ _));
    try (intros [= <- <-]; right; reflexivity).
  simpl. destruct (negb (bool_decide _));
    intros [= <- <-]; right; reflexivity.
Qed.

End PipelineFacts.

(** X5: when no URL of the batch could be fetched (the empty batch
    included), [process_urls] raises instead of returning an empty index;
    nothing is saved and the disk is left as it was. *)
Theorem process_urls_nothing_fetched `{Services}
    (self : DocumentProcessor.t) (urls : list string) (save_index : bool)
    (s : State) :
  fetched_documents (tick s) urls = [] ->
  exists s' e,
    DocumentProcessor.process_urls self urls save_index s = (s', Raise e) /\
    fs s' = fs s /\
    saves (log s') = saves (log s).
Proof.
  intros Hnone. rewrite process_urls_pipeline. unfold pipeline.
  rewrite load_urls_run, Hnone, split_documents_run. simpl.
  match goal with
  | |- context [DocumentProcessor.create_vectorstore [] ?s1] =>
      destruct (create_vectorstore_empty s1) as (s3 & e & Hcreate);
      rewrite Hcreate;
      destruct (create_vectorstore_trace _ _ _ _ Hcreate) as (Hlog & Hfs)
  end.
  exists s3, e. split; [reflexivity|]. split; [exact Hfs|].
  rewrite Hlog. simpl. rewrite !saves_app, saves_fetch. simpl.
  now rewrite !app_nil_r.
Qed.

Lemma process_urls_nothing_fetched_witness :
  exists s' e,
    DocumentProcessor.process_urls (H:=Sample.steady) Sample.processor
      ["http://down"] true Sample.empty_state = (s', Raise e) /\
    fs s' = ∅.
Proof.
  destruct (process_urls_nothing_fetched (H:=Sample.steady) Sample.processor
              ["http://down"] true Sample.empty_state eq_refl)
    as (s' & e & Hrun & Hfs & _).
  exists s', e. split; assumption.
Defined.

(** X6: with [save_index] false, [process_urls] never touches the disk,
    whether it returns or raises. *)
Theorem process_urls_without_save_keeps_disk `{Services}
    (self : DocumentProcessor.t) (urls : list string) (s : State) :
  fs (fst (DocumentProcessor.process_urls self urls false s)) = fs s.
Proof.
  rewrite process_urls_pipeline. unfold pipeline.
  rewrite load_urls_run, split_documents_run.
  destruct (Splitter.split_documents _ _) as [chunks|e]; [|reflexivity].
  destruct (DocumentProcessor.create_vectorstore chunks _)
    as [s3 [vs|e]] eqn:Hcreate;
    destruct (create_vectorstore_trace _ _ _ _ Hcreate) as (_ & Hfs);
    exact Hfs.
Qed.

(** X7: whatever its outcome, [process_urls] fetches every URL of the batch
    once, in the order given, and fetches nothing else. *)
Theorem process_urls_fetches_once `{Services}
    (self : DocumentProcessor.t) (urls : list string) (save_index : bool)
    (s : State) :
  fetches (log (fst (DocumentProcessor.process_urls self urls save_index s)))
  = fetches (log s) ++ urls.
Proof.
  rewrite process_urls_pipeline. unfold pipeline.
  rewrite load_urls_run, split_documents_run.
  assert (fetches (log s ++ map EvFetch urls) = fetches (log s) ++ urls)
    as Hloaded by now rewrite fetches_app, fetches_fetch.
  destruct (Splitter.split_documents _ _) as [chunks|e]; [|exact Hloaded].
  destruct (DocumentProcessor.create_vectorstore chunks _)
    as [s3 [vs|e]] eqn:Hcreate;
    destruct (create_vectorstore_trace _ _ _ _ Hcreate) as (Hlog & _);
    simpl in Hlog.
  - destruct save_index.
    + destruct (DocumentProcessor.save_vectorstore vs None s3)
        as [s4 [[]|e]] eqn:Hsave;
        unfold DocumentProcessor.save_vectorstore in Hsave;
        apply save_local_trace in Hsave as (Hlog4 & _);
        simpl; now rewrite Hlog4, fetches_save, Hlog, fetches_embed.
    + simpl. now rewrite Hlog, fetches_embed.
  - simpl. now rewrite Hlog, fetches_embed.
Qed.

(** X8: every method of the processor keeps the [embeddings] attribute
    either unset or equal to the configured client, whether the method
    returns or raises. *)
Theorem attribute_ok_kept `{Services}
    (self : DocumentProcessor.t) (s : State) :
  attribute_ok s ->
  attribute_ok (fst (DocumentProcessor._initialize_embeddings s)) /\
  (forall urls, attribute_ok (fst (DocumentProcessor.load_urls urls s))) /\
  (forall docs,
     attribute_ok (fst (DocumentProcessor.split_documents self docs s))) /\
  (forall chunks,
     attribute_ok (fst (DocumentProcessor.create_vectorstore chunks s))) /\
  (forall vs fp,
     attribute_ok (fst (DocumentProcessor.save_vectorstore vs fp s))) /\
  (forall fp, attribute_ok (fst (DocumentProcessor.load_vectorstore fp s))) /\
  (forall fp, attribute_ok (fst (DocumentProcessor.index_exists fp s))) /\
  (forall urls save_index,
     attribute_ok
       (fst (DocumentProcessor.process_urls self urls save_index s))).
Proof.
  intros Hok.
  assert (forall chunks s0, attribute_ok s0 ->
            attribute_ok (fst (DocumentProcessor.create_vectorstore chunks s0)))
    as Hcreate.
  { intros chunks s0 Hok0.
    destruct (DocumentProcessor.create_vectorstore chunks s0) as [s' o] eqn:Hc.
    exact (create_vectorstore_attribute _ _ _ _ Hok0 Hc). }
  assert (forall vs fp s0, attribute_ok s0 ->
            attribute_ok (fst (DocumentProcessor.save_vectorstore vs fp s0)))
    as Hsave.
  { intros vs fp s0 Hok0. unfold DocumentProcessor.save_vectorstore.
    destruct (Faiss.save_local vs _ s0) as [s' o] eqn:Hs.
    apply save_local_trace in Hs as (_ & _ & Hemb).
    unfold attribute_ok in *. simpl. now rewrite Hemb. }
  assert (forall urls s0, attribute_ok s0 ->
            attribute_ok (fst (DocumentProcessor.load_urls urls s0)))
    as Hload.
  { intros urls s0 Hok0. rewrite load_urls_run. exact Hok0. }
  split; [rewrite (initialize_embeddings_run _ Hok); right; reflexivity|].
  split; [intros urls; now apply Hload|].
  split; [intros docs; now rewrite split_documents_run|].
  split; [intros chunks; now apply Hcreate|].
  split; [intros vs fp; now apply Hsave|].
  split.
  { intros fp. rewrite load_vectorstore_run.
    destruct (DocumentProcessor.path_isdir s _); [|exact Hok].
    destruct Hok as [Hnone|Hsome]; [rewrite Hnone | rewrite Hsome];
      right; reflexivity. }
  split; [intros fp; now rewrite index_exists_run|].
  intros urls save_index. rewrite process_urls_pipeline. unfold pipeline.
  pose proof (Hload urls s Hok) as H1.
  destruct (DocumentProcessor.load_urls urls s) as [s1 [docs|e]];
    [|exact H1].
  rewrite split_documents_run.
  destruct (Splitter.split_documents _ _) as [chunks|e]; [|exact H1].
  pose proof (Hcreate chunks s1 H1) as H3.
  destruct (DocumentProcessor.create_vectorstore chunks s1)
    as [s3 [vs|e]]; [|exact H3].
  destruct save_index; [|exact H3].
  pose proof (Hsave vs None s3 H3) as H4.
  destruct (DocumentProcessor.save_vectorstore vs None s3) as [s4 [[]|e]];
    exact H4.
Qed.

Lemma attribute_ok_kept_witness :
  attribute_ok (H:=Sample.steady)
    (fst (DocumentProcessor.process_urls (H:=Sample.steady) Sample.processor
            ["http://a"] true Sample.empty_state)).
Proof.
  apply (attribute_ok_kept (H:=Sample.steady) Sample.processor
           Sample.empty_state (or_introl eq_refl)).
Defined.

(** * Further properties of the question-answering service *)

Section AnswerFacts.
Context `{Services}.

Lemma ask_run self question s :
  QAChain.ask self question s
  = match retrieved (QAChain.retriever self) question (tick s) with
    | Raise e => (after_retrieval question s, Raise e)
    | Ok docs =>
        ({| fs := fs s; tick := S (S (tick s));
            log := log s ++
                   [EvRetrieve question; EvEmbed [question];
                    EvChat (QAChain.prompt (QAChain._format_docs docs)
                              question)];
            embeddings := embeddings s |},
         chat_api (QAChain.llm self) (S (tick s))
           (QAChain.prompt (QAChain._format_docs docs) question))
    end.
Proof.
  unfold QAChain.ask, QAChain.chain_invoke, QAChain.llm_invoke, bind.
  rewrite invoke_run.
  destruct (retrieved _ question (tick s)) as [docs|e]; [|reflexivity].
  unfold emit, next_tick, lift, ret; simpl. rewrite <- app_assoc; simpl.
  destruct (chat_api _ _ _); reflexivity.
Qed.




End AnswerFacts.

(** X9: [ask] makes one retrieval and, if that returns, one chat call: the
    prompt holds the system text followed by the retrieved chunks, then the
    question, and the reply or the error of the chat call is what [ask]
    gives back.  When the retrieval raises, the model is not called at
    all. *)
Theorem ask_one_retrieval_one_chat `{Services}
    (self : QAChain.t) (question : string) (s : State) :
  (forall e,
     retrieved (QAChain.retriever self) question (tick s) = Raise e ->
     QAChain.ask self question s = (after_retrieval question s, Raise e)) /\
  (forall docs,
     retrieved (QAChain.retriever self) question (tick s) = Ok docs ->
     QAChain.ask self question s
     = ({| fs := fs s; tick := S (S (tick s));
           log := log s ++
                  [EvRetrieve question; EvEmbed [question];
                   EvChat (QAChain.prompt (QAChain._format_docs docs)
                             question)];
           embeddings := embeddings s |},
        chat_api (QAChain.llm self) (S (tick s))
          (QAChain.prompt (QAChain._format_docs docs) question))).
Proof.
  split; intros x Hx; rewrite ask_run, Hx; reflexivity.
Qed.

Lemma ask_one_retrieval_one_chat_witness :
  exists s',
    QAChain.ask (H:=Sample.steady) Sample.steady_chain "q" Sample.empty_state
      = (s', Ok "I don't know.") /\
    retrievals (log s') = ["q"].
Proof.
  eexists. split.
  - apply (proj2 (ask_one_retrieval_one_chat (H:=Sample.steady)
                    Sample.steady_chain "q" Sample.empty_state)
             (take 3 Sample.abac)).
    vm_compute. reflexivity.
  - reflexivity.
Defined.

(** X10: [ask_with_sources] is all or nothing.  If the first retrieval
    raises, the error is raised at once: no second retrieval, no chat call.
    If [ask] then raises, its error is raised and no sources are returned.
    Otherwise the result has exactly the two keys [answer] and [sources],
    and the answer is the one [ask] returned. *)
Theorem ask_with_sources_all_or_nothing `{Services}
    (self : QAChain.t) (question : string) (s : State) :
  (forall e,
     retrieved (QAChain.retriever self) question (tick s) = Raise e ->
     QAChain.ask_with_sources self question s
     = (after_retrieval question s, Raise e)) /\
  (forall docs s' e,
     retrieved (QAChain.retriever self) question (tick s) = Ok docs ->
     QAChain.ask self question (after_retrieval question s) = (s', Raise e) ->
     QAChain.ask_with_sources self question s = (s', Raise e)) /\
  (forall docs s' answer,
     retrieved (QAChain.retriever self) question (tick s) = Ok docs ->
     QAChain.ask self question (after_retrieval question s) = (s', Ok answer) ->
     exists res,
       QAChain.ask_with_sources self question s = (s', Ok res) /\
       res !! "answer" = Some (Py.Str answer) /\
       dom res = {[ "answer"; "sources" ]}).
Proof.
  unfold QAChain.ask_with_sources, bind. rewrite invoke_run.
  split; [|split].
  - intros e ->. reflexivity.
  - intros docs s' e -> ->. reflexivity.
  - intros docs s' answer -> ->. unfold ret. eexists. split; [reflexivity|].
    split.
    + rewrite lookup_insert_ne by discriminate. apply lookup_insert_eq.
    + rewrite !dom_insert_L, dom_empty_L. set_solver.
Qed.

(** A run in the steady sample world returns the answer of [ask]. *)
Lemma ask_with_sources_all_or_nothing_witness :
  exists s' res,
    QAChain.ask_with_sources (H:=Sample.steady) Sample.steady_chain "q"
      Sample.empty_state = (s', Ok res) /\
    res !! "answer" = Some (Py.Str "I don't know.").
Proof.
  destruct (proj2 (proj2 (ask_with_sources_all_or_nothing (H:=Sample.steady)
                            Sample.steady_chain "q" Sample.empty_state))
              (take 3 Sample.abac)
              (fst (QAChain.ask (H:=Sample.steady) Sample.steady_chain "q"
                      (after_retrieval "q" Sample.empty_state)))
              "I don't know.")
    as (res & Hrun & Hanswer & _).
  - vm_compute. reflexivity.
  - vm_compute. reflexivity.
  - eexists _, res. split; [exact Hrun | exact Hanswer].
Defined.



(** * Provenance, from the URLs to the sources of an answer *)

Section Provenance.
Context `{Services}.

Lemma fetched_sources t urls :
  source_ids (fetched_documents t urls) `sublist_of` urls /\
  length (source_ids (fetched_documents t urls))
    = length (fetched_documents t urls).
Proof.
  revert t. induction urls as [|url urls IH]; intros t; simpl.
  - split; [constructor | reflexivity].
  - destruct (IH (S t)) as (Hsub & Hlen).
    destruct (partition t url) as [elements|e].
    + change (source_ids (mkDocument (Py.join (Py.nl +:+ Py.nl) elements)
                            {[ "source" := url ]}
                          :: fetched_documents (S t) urls))
        with (url :: source_ids (fetched_documents (S t) urls)).
      split; [now constructor | simpl; now rewrite Hlen].
    + split; [now constructor | assumption].
Qed.

Lemma source_ids_elem docs x :
  x ∈ source_ids docs <-> exists d, d ∈ docs /\ metadata d !! "source" = Some x.
Proof. unfold source_ids. apply list_elem_of_omap. Qed.

Lemma fetched_labelled t urls :
  Forall (labelled_from urls) (fetched_documents t urls).
Proof.
  apply Forall_forall. intros d Hd x Hx.
  destruct (fetched_sources t urls) as (Hsub & _).
  eapply elem_of_sublist; [|exact Hsub].
  apply source_ids_elem. eauto.
Qed.

(** Every chunk carries the metadata of one of the documents. *)
Lemma split_documents_metadata sp documents chunks :
  Splitter.split_documents sp documents = Ok chunks ->
  Forall (fun c => exists d, d ∈ documents /\ metadata c = metadata d) chunks.
Proof.
  revert chunks. induction documents as [|doc rest IH]; intros chunks; simpl.
  - intros [= <-]. constructor.
  - destruct (Splitter.split_text sp (page_content doc)) as [pieces|e];
      [|discriminate].
    destruct (Splitter.split_documents sp rest) as [more|e]; [|discriminate].
    intros [= <-]. apply Forall_app. split.
    + apply Forall_forall. intros c (piece & -> & _)%list_elem_of_fmap.
      exists doc. split; [apply list_elem_of_here | reflexivity].
    + eapply Forall_impl; [exact (IH more eq_refl)|].
      intros c (d & Hd & Hmeta). exists d.
      split; [now apply list_elem_of_further | assumption].
Qed.

(** The document store of a freshly built index holds chunks only. *)
Lemma create_vectorstore_docstore chunks s s' vs :
  DocumentProcessor.create_vectorstore chunks s = (s', Ok vs) ->
  forall id d, docstore vs !! id = Some d -> d ∈ chunks.
Proof.
  unfold DocumentProcessor.create_vectorstore,
    DocumentProcessor._initialize_embeddings, Faiss.from_documents,
    Faiss.embed_documents, bind, get, set_embeddings, emit, next_tick, lift,
    ret, raise.
  destruct (embeddings s) as [e|]; simpl;
    destruct (embed_api _ _ _) as [[|v vectors]|err]; try discriminate;
    destruct (negb (Nat.eqb _ _)); try discriminate;
    simpl; destruct (negb (bool_decide _)); try discriminate;
    intros [= _ <-] id d Hlook; simpl in Hlook;
    apply elem_of_list_to_map_2 in Hlook;
    now apply elem_of_zip_r in Hlook.
Qed.

(** The rows a search resolves are documents of the store. *)
Lemma fetch_rows_docstore vs rows docs :
  Faiss.fetch_rows vs rows = Ok docs ->
  Forall (fun d => exists id, docstore vs !! id = Some d) docs.
Proof.
  revert docs. induction rows as [|i rows IH]; intros docs; simpl.
  - intros [= <-]. constructor.
  - destruct (i =? -1)%Z; [apply IH|].
    destruct (i <? 0)%Z; [discriminate|].
    destruct (index_to_docstore_id vs !! Z.to_nat i) as [id|]; [|discriminate].
    destruct (docstore vs !! id) as [doc|] eqn:Hdoc; [|discriminate].
    destruct (Faiss.fetch_rows vs rows) as [found|e]; [|discriminate].
    intros [= <-]. constructor; [eauto | now apply IH].
Qed.

Lemma retrieved_docstore r question t docs :
  retrieved r question t = Ok docs ->
  Forall (fun d => exists id, docstore (Faiss.vectorstore r) !! id = Some d)
    docs.
Proof.
  unfold retrieved.
  destruct (embed_api _ _ _) as [[|v vs]|e]; try discriminate.
  destruct (Faiss.fetch_rows _ _) as [found|e] eqn:Hrows; [|discriminate].
  intros [= <-]. apply Forall_take. now apply fetch_rows_docstore in Hrows.
Qed.

(** The stages behind a run of the pipeline that returns. *)
Lemma process_urls_stages self urls save_index s s1 vs nd nc :
  DocumentProcessor.process_urls self urls save_index s
    = (s1, Ok (vs, nd, nc)) ->
  exists chunks s2 s3,
    Splitter.split_documents (DocumentProcessor.text_splitter self)
      (fetched_documents (tick s) urls) = Ok chunks /\
    DocumentProcessor.create_vectorstore chunks s2 = (s3, Ok vs).
Proof.
  rewrite process_urls_pipeline. unfold pipeline.
  rewrite load_urls_run, split_documents_run.
  destruct (Splitter.split_documents _ _) as [chunks|e]; [|discriminate].
  destruct (DocumentProcessor.create_vectorstore chunks _)
    as [s3 [store|e]] eqn:Hcreate; [|discriminate].
  destruct save_index.
  - destruct (DocumentProcessor.save_vectorstore store None s3)
      as [s4 [[]|e]]; [|discriminate].
    intros [= _ <- _ _]. eauto.
  - intros [= _ <- _ _]. eauto.
Qed.

End Provenance.

(** X12: splitting keeps the provenance: every chunk carries the metadata
    of one of the documents that were split, unchanged. *)
Theorem split_documents_keeps_metadata
    (self : DocumentProcessor.t) (documents chunks : list Document)
    (s s' : State) :
  DocumentProcessor.split_documents self documents s = (s', Ok chunks) ->
  Forall (fun c => exists d, d ∈ documents /\ metadata c = metadata d) chunks.
Proof.
  rewrite split_documents_run. intros [= _ Hsplit].
  now apply split_documents_metadata in Hsplit.
Qed.

Lemma split_documents_keeps_metadata_witness :
  Forall (fun c => exists d,
            d ∈ [Sample.doc "Alpha Beta. Gamma Delta." "http://a"] /\
            metadata c = metadata d)
    (match Splitter.split_documents (Sample.splitter 10 2)
             [Sample.doc "Alpha Beta. Gamma Delta." "http://a"] with
     | Ok chunks => chunks
     | Raise _ => []
     end).
Proof.
  apply (split_documents_keeps_metadata
           (DocumentProcessor.mkProcessor (Sample.splitter 10 2))
           [Sample.doc "Alpha Beta. Gamma Delta." "http://a"] _
           Sample.empty_state Sample.empty_state).
  vm_compute. reflexivity.
Defined.



(** X14: from end to end, every source that an answer lists is one of the
    URLs that were given to [process_urls] when the index was built. *)
Theorem answer_sources_are_ingested_urls `{Services}
    (self : DocumentProcessor.t) (urls : list string) (save_index : bool)
    (s s1 s2 s3 : State) (vs : FAISS) (num_documents num_chunks : nat)
    (question : string) (res : gmap string Py.value) :
  DocumentProcessor.process_urls self urls save_index s
    = (s1, Ok (vs, num_documents, num_chunks)) ->
  QAChain.ask_with_sources (QAChain.init vs) question s2 = (s3, Ok res) ->
  exists ids,
    res !! "sources" = Some (Py.Str (QAChain.render_sources ids)) /\
    Forall (fun id => id ∈ urls) ids.
Proof.
  intros Hbuild Hask.
  destruct (process_urls_stages _ _ _ _ _ _ _ _ Hbuild)
    as (chunks & sb & sc & Hsplit & Hcreate).
  apply split_documents_metadata in Hsplit.
  pose proof (create_vectorstore_docstore _ _ _ _ Hcreate) as Hstore.
  destruct (ask_with_sources_run _ _ _ _ _ Hask)
    as (docs1 & docs2 & answer & H1 & _ & _ & _ & _ & ->).
  exists (QAChain.unique_sources docs1).
  split; [apply lookup_insert_eq|].
  rewrite unique_sources_first_occurrences.
  apply Forall_forall. intros id [Hid _]%first_occurrences_elem.
  apply source_ids_elem in Hid as (d & Hd & Hsource).
  apply retrieved_docstore in H1.
  rewrite Forall_forall in H1. destruct (H1 d Hd) as (key & Hkey).
  simpl in Hkey. apply Hstore in Hkey.
  rewrite Forall_forall in Hsplit.
  destruct (Hsplit d Hkey) as (doc & Hdoc & Hmeta).
  pose proof (fetched_labelled (tick s) urls) as Hlabel.
  rewrite Forall_forall in Hlabel.
  apply (Hlabel doc Hdoc id). now rewrite <- Hmeta.
Qed.

Lemma answer_sources_are_ingested_urls_witness :
  exists s1 vs nd nc s3 res ids,
    DocumentProcessor.process_urls (H:=Sample.steady) Sample.processor
      ["http://a"] true Sample.empty_state = (s1, Ok (vs, nd, nc)) /\
    QAChain.ask_with_sources (H:=Sample.steady)
      (QAChain.init (H:=Sample.steady) vs) "q" s1 = (s3, Ok res) /\
    res !! "sources" = Some (Py.Str (QAChain.render_sources ids)) /\
    Forall (fun id => id ∈ ["http://a"]) ids.
Proof.
  destruct (DocumentProcessor.process_urls (H:=Sample.steady) Sample.processor
              ["http://a"] true Sample.empty_state)
    as [s1 [[[vs nd] nc]|e]] eqn:Hbuild;
    [|vm_compute in Hbuild; discriminate].
  pose proof Hbuild as Hconcrete. vm_compute in Hconcrete.
  injection Hconcrete as Hs1 Hvs _ _.
  destruct (QAChain.ask_with_sources (H:=Sample.steady)
              (QAChain.init (H:=Sample.steady) vs) "q" s1)
    as [s3 [res|e]] eqn:Hask.
  - destruct (answer_sources_are_ingested_urls (H:=Sample.steady) _ _ _ _ _ _ _
                _ _ _ _ _ Hbuild Hask) as (ids & Hres & Hids).
    exists s1, vs, nd, nc, s3, res, ids. repeat split; assumption.
  - subst s1 vs. vm_compute in Hask. discriminate.
Defined.

(** * Properties of the script *)

Section Strings.

Lemma blank_lstrip s : blank (Py.lstrip s) = blank s.
Proof.
  induction s as [|c s IH]; [reflexivity|]. simpl.
  destruct (Py.isspace c) eqn:Hc; simpl; [exact IH | now rewrite Hc].
Qed.

Lemma lstrip_empty_iff s : Py.lstrip s = EmptyString <-> blank s = true.
Proof.
  induction s as [|c s IH]; simpl; [tauto|].
  destruct (Py.isspace c); simpl; [exact IH|].
  split; discriminate.
Qed.

Lemma rstrip_empty_iff s : Py.rstrip s = EmptyString <-> blank s = true.
Proof.
  induction s as [|c s IH]; simpl; [tauto|].
  destruct (Py.rstrip s) eqn:Hr.
  - destruct (Py.isspace c); simpl.
    + split; [intros _; now apply IH | reflexivity].
    + split; discriminate.
  - split; [discriminate|]. intros [_ Hb]%andb_true_iff.
    apply IH in Hb. discriminate.
Qed.

Lemma strip_empty_iff s : Py.strip s = EmptyString <-> blank s = true.
Proof. unfold Py.strip. now rewrite rstrip_empty_iff, blank_lstrip. Qed.

Lemma append_cons c a b : String c a +:+ b = String c (a +:+ b).
Proof. reflexivity. Qed.

Lemma append_empty_r a : a +:+ EmptyString = a.
Proof. induction a as [|c a IH]; [reflexivity|]. now rewrite append_cons, IH. Qed.

Lemma append_assoc a b c : (a +:+ b) +:+ c = a +:+ (b +:+ c).
Proof.
  induction a as [|x a IH]; [reflexivity|]. now rewrite !append_cons, IH.
Qed.

Lemma blank_app a b : blank (a +:+ b) = blank a && blank b.
Proof.
  induction a as [|c a IH]; [reflexivity|].
  rewrite append_cons. simpl. rewrite IH. now rewrite andb_assoc.
Qed.

Lemma prefix_nl c rest :
  String.prefix Py.nl (String c rest) = Ascii.eqb c (ascii_of_nat 10).
Proof.
  unfold Py.nl.
  change (String.prefix (String (ascii_of_nat 10) EmptyString) (String c rest))
    with (if ascii_dec (ascii_of_nat 10) c
          then String.prefix EmptyString rest else false).
  destruct (ascii_dec (ascii_of_nat 10) c) as [<-|Hne].
  - destruct rest; reflexivity.
  - symmetry. apply Ascii.eqb_neq. congruence.
Qed.

(** A text that is not blank has a line that is not blank. *)
Lemma split_finds_text s : forall cur,
  blank (cur +:+ s) = false ->
  Exists (fun line => blank line = false)
    (Py.split_from Py.nl 0 cur s).
Proof.
  induction s as [|c s IH]; intros cur Hblank.
  - rewrite append_empty_r in Hblank. simpl. now constructor.
  - cbn [Py.split_from]. rewrite prefix_nl.
    destruct (Ascii.eqb c (ascii_of_nat 10)) eqn:Hc.
    + apply Ascii.eqb_eq in Hc as ->.
      rewrite blank_app in Hblank. simpl in Hblank.
      destruct (blank cur) eqn:Hcur; [|now constructor].
      apply Exists_cons_tl. apply IH. exact Hblank.
    + apply IH. now rewrite append_assoc.
Qed.

End Strings.

(** X15: the warning "Please enter at least one valid URL" cannot be
    reached: as soon as the text of the URL box passes the test
    [urls_input.strip()], the parsed list has at least one URL and the
    pipeline is run over it. *)
Theorem process_branch_never_warns_no_valid_url (urls_input : string) :
  App.process_branch urls_input <> App.WarnNoValidUrl /\
  (Py.strip urls_input <> EmptyString ->
   App.process_branch urls_input = App.RunPipeline (App.parse_urls urls_input)
   /\ App.parse_urls urls_input <> []).
Proof.
  assert (Py.strip urls_input <> EmptyString ->
          App.parse_urls urls_input <> []) as Hsome.
  { intros Hstrip.
    assert (blank (EmptyString +:+ urls_input) = false) as Hblank.
    { change (blank urls_input = false).
      destruct (blank urls_input) eqn:Hb; [|reflexivity].
      apply strip_empty_iff in Hb. contradiction. }
    apply split_finds_text in Hblank.
    apply Exists_exists in Hblank as (line & Hin & Hline).
    unfold App.parse_urls. intros Hnil.
    apply fmap_nil_inv in Hnil.
    assert (line ∈ filter (fun url => Py.strip url <> EmptyString)
                      (Py.split_from Py.nl 0 EmptyString urls_input)) as Hf.
    { apply list_elem_of_filter. split; [|assumption].
      intros Hs. apply strip_empty_iff in Hs. congruence. }
    rewrite Hnil in Hf. inversion Hf. }
  unfold App.process_branch.
  destruct (decide (Py.strip urls_input = EmptyString)) as [Hs|Hs].
  - split; [discriminate | contradiction].
  - specialize (Hsome Hs).
    destruct (App.parse_urls urls_input) as [|u urls] eqn:Hp;
      [contradiction|]. simpl. split; [discriminate|]. intros _.
    split; [reflexivity | discriminate].
Qed.

Lemma process_branch_never_warns_no_valid_url_witness :
  App.process_branch ("  http://a " +:+ Py.nl +:+ Py.nl +:+ "http://b")
  = App.RunPipeline ["http://a"; "http://b"].
Proof.
  apply (proj2 (process_branch_never_warns_no_valid_url
                  ("  http://a " +:+ Py.nl +:+ Py.nl +:+ "http://b"))).
  vm_compute. discriminate.
Defined.

Section Lines.

Lemma lstrip_idem s : Py.lstrip (Py.lstrip s) = Py.lstrip s.
Proof.
  induction s as [|c s IH]; [reflexivity|]. simpl.
  destruct (Py.isspace c) eqn:Hc; [exact IH|]. simpl. now rewrite Hc.
Qed.

Lemma rstrip_idem s : Py.rstrip (Py.rstrip s) = Py.rstrip s.
Proof.
  induction s as [|c s IH]; [reflexivity|]. simpl.
  destruct (Py.rstrip s) as [|a r] eqn:Hr.
  - destruct (Py.isspace c) eqn:Hc; [reflexivity|]. simpl. now rewrite Hc.
  - change (Py.rstrip (String c (String a r)))
      with (match Py.rstrip (String a r) with
            | EmptyString =>
                if Py.isspace c then EmptyString else String c EmptyString
            | String x y => String c (String x y)
            end).
    now rewrite IH.
Qed.

(** Stripping on the right leaves a string that starts with no white space
    as it starts. *)
Lemma lstrip_rstrip t :
  Py.lstrip t = t -> Py.lstrip (Py.rstrip t) = Py.rstrip t.
Proof.
  destruct t as [|c rest]; [reflexivity|]. simpl.
  destruct (Py.isspace c) eqn:Hc.
  - intros Heq. pose proof (lstrip_length rest) as Hlen.
    rewrite Heq in Hlen. simpl in Hlen. lia.
  - intros _. destruct (Py.rstrip rest); simpl; now rewrite Hc.
Qed.

Lemma strip_idem s : Py.strip (Py.strip s) = Py.strip s.
Proof.
  unfold Py.strip.
  rewrite (lstrip_rstrip (Py.lstrip s)) by apply lstrip_idem.
  apply rstrip_idem.
Qed.

Lemma one_line_app a b : one_line (a +:+ b) = one_line a && one_line b.
Proof.
  induction a as [|c a IH]; [reflexivity|].
  rewrite append_cons. simpl. rewrite IH. now rewrite andb_assoc.
Qed.

Lemma one_line_lstrip s : one_line s = true -> one_line (Py.lstrip s) = true.
Proof.
  induction s as [|c s IH]; [reflexivity|]. simpl.
  intros [Hc Hs]%andb_true_iff.
  destruct (Py.isspace c); [now apply IH|]. simpl. now rewrite Hc, Hs.
Qed.

Lemma one_line_rstrip s : one_line s = true -> one_line (Py.rstrip s) = true.
Proof.
  induction s as [|c s IH]; [reflexivity|]. simpl.
  intros [Hc Hs]%andb_true_iff. specialize (IH Hs).
  destruct (Py.rstrip s).
  - destruct (Py.isspace c); [reflexivity|]. simpl. now rewrite Hc.
  - change (one_line (String c (String a s0)))
      with (negb (Ascii.eqb c (ascii_of_nat 10)) && one_line (String a s0)).
    now rewrite Hc, IH.
Qed.

Lemma one_line_strip s : one_line s = true -> one_line (Py.strip s) = true.
Proof. intros Hs. now apply one_line_rstrip, one_line_lstrip. Qed.

(** The pieces of a split at newlines hold no newline. *)
Lemma split_lines_one_line s : forall cur,
  one_line cur = true ->
  Forall (fun line => one_line line = true) (Py.split_from Py.nl 0 cur s).
Proof.
  induction s as [|c s IH]; intros cur Hcur.
  - simpl. now repeat constructor.
  - cbn [Py.split_from]. rewrite prefix_nl.
    destruct (Ascii.eqb c (ascii_of_nat 10)) eqn:Hc.
    + constructor; [assumption|]. now apply IH.
    + apply IH. rewrite one_line_app, Hcur. simpl. now rewrite Hc.
Qed.

(** Reading a line that holds no newline moves it into the current piece. *)
Lemma split_from_line x : forall cur tail,
  one_line x = true ->
  Py.split_from Py.nl 0 cur (x +:+ tail)
  = Py.split_from Py.nl 0 (cur +:+ x) tail.
Proof.
  induction x as [|c x IH]; intros cur tail Hx.
  - now rewrite append_empty_r.
  - simpl in Hx. apply andb_true_iff in Hx as [Hc Hx].
    rewrite append_cons. cbn [Py.split_from]. rewrite prefix_nl.
    apply negb_true_iff in Hc. rewrite Hc.
    rewrite IH by assumption.
    now rewrite append_assoc.
Qed.

Lemma split_from_newline cur tail :
  Py.split_from Py.nl 0 cur (Py.nl +:+ tail)
  = cur :: Py.split_from Py.nl 0 EmptyString tail.
Proof.
  unfold Py.nl at 2. rewrite append_cons.
  cbn [Py.split_from]. rewrite prefix_nl.
  now rewrite Ascii.eqb_refl.
Qed.

(** Splitting at newlines undoes joining with newlines, for lines that hold
    none. *)
Lemma split_join_lines ids :
  ids <> [] ->
  Forall (fun id => one_line id = true) ids ->
  Py.split_from Py.nl 0 EmptyString (Py.join Py.nl ids) = ids.
Proof.
  induction ids as [|x ids IH]; [contradiction|]. intros _ Hall.
  apply Forall_cons in Hall as [Hx Hids].
  destruct ids as [|y ids].
  - simpl. rewrite <- (append_empty_r x) at 1.
    rewrite split_from_line by assumption. reflexivity.
  - change (Py.join Py.nl (x :: y :: ids))
      with (x +:+ Py.nl +:+ Py.join Py.nl (y :: ids)).
    rewrite split_from_line by assumption.
    rewrite split_from_newline. simpl (EmptyString +:+ x).
    rewrite IH; [reflexivity | discriminate | assumption].
Qed.

(** Clean lines pass the filter of the script and are not altered by its
    stripping. *)
Lemma clean_lines_kept l :
  Forall (fun id =>
            id <> EmptyString /\ Py.strip id = id /\ one_line id = true) l ->
  map Py.strip (filter (fun source => Py.strip source <> EmptyString) l) = l.
Proof.
  induction 1 as [|id l (Hid & Hstrip & _) _ IH]; [reflexivity|].
  rewrite filter_cons.
  destruct (decide (Py.strip id <> EmptyString)) as [_|Hn].
  - simpl. now rewrite Hstrip, IH.
  - exfalso. apply Hn. now rewrite Hstrip.
Qed.

End Lines.

(** X16: every URL that the script passes on is clean: not empty, without
    white space at either end, and on one line. *)
Theorem parse_urls_clean (urls_input : string) :
  Forall (fun url =>
            url <> EmptyString /\ Py.strip url = url /\ one_line url = true)
    (App.parse_urls urls_input).
Proof.
  unfold App.parse_urls. apply Forall_fmap, Forall_forall.
  intros line [Hstrip Hin]%list_elem_of_filter. simpl.
  split; [assumption|]. split; [apply strip_idem|].
  apply one_line_strip.
  pose proof (split_lines_one_line urls_input EmptyString eq_refl) as Hlines.
  rewrite Forall_forall in Hlines. now apply Hlines.
Qed.

(** X17: the sources shown under an answer are the sources found: for
    identifiers that are clean (as the parsed URLs are), splitting the
    [sources] string into bullets gives back the list it was joined from.
    With no source, the one bullet shown is the sentence
    "No sources available". *)
Theorem source_bullets_roundtrip (ids : list string) :
  Forall (fun id =>
            id <> EmptyString /\ Py.strip id = id /\ one_line id = true) ids ->
  App.source_bullets (QAChain.render_sources ids)
  = match ids with
    | [] => ["No sources available"]
    | _ => ids
    end.
Proof.
  intros Hclean. destruct ids as [|x ids]; [reflexivity|].
  assert (QAChain.render_sources (x :: ids) = Py.join Py.nl (x :: ids))
    as -> by reflexivity.
  unfold App.source_bullets.
  assert (Py.join Py.nl (x :: ids) <> EmptyString) as Hne.
  { apply Forall_cons in Hclean as [(Hx & _) _].
    destruct x as [|c x]; [contradiction|].
    destruct ids; [discriminate|].
    change (Py.join Py.nl (String c x :: s :: ids))
      with (String c (x +:+ Py.nl +:+ Py.join Py.nl (s :: ids))).
    discriminate. }
  destruct (decide _) as [Heq|_]; [contradiction|].
  rewrite split_join_lines; [|discriminate|].
  - now apply clean_lines_kept.
  - eapply Forall_impl; [exact Hclean|]. intros id (_ & _ & Hone). exact Hone.
Qed.

Lemma source_bullets_roundtrip_witness :
  App.source_bullets (QAChain.render_sources ["http://a"; "http://b"])
  = ["http://a"; "http://b"].
Proof.
  apply (source_bullets_roundtrip ["http://a"; "http://b"]).
  repeat constructor; discriminate.
Defined.

(** X18: a click on the load button never ends in "Failed to load index":
    once [index_exists()] has answered yes, [load_vectorstore()] returns a
    store or raises, never [None].  The click reports that no index is saved
    exactly when the default path is not a directory, and then changes
    nothing. *)
Theorem load_clicked_never_fails_to_load `{Services} (s : State) :
  snd (App.load_clicked s) <> Ok App.FailedToLoad /\
  (snd (App.load_clicked s) = Ok App.NoSavedIndex
   <-> DocumentProcessor.path_isdir s DocumentProcessor.default_path = false) /\
  (DocumentProcessor.path_isdir s DocumentProcessor.default_path = false ->
   App.load_clicked s = (s, Ok App.NoSavedIndex)).
Proof.
  unfold App.load_clicked, bind. rewrite index_exists_run.
  pose proof (load_vectorstore_run None s) as Hrun. simpl in Hrun.
  destruct (DocumentProcessor.path_isdir s DocumentProcessor.default_path).
  - rewrite Hrun.
    destruct (fs s !! Faiss.index_file DocumentProcessor.default_path)
      as [[[| |]|]|];
      try (split; [discriminate|]; split; [split|]; discriminate).
    destruct (fs s !! Faiss.pickle_file DocumentProcessor.default_path)
      as [[[| |]|]|];
      split; try discriminate; split; try split; discriminate.
  - split; [discriminate|]. split; [split|]; reflexivity.
Qed.

Lemma load_clicked_never_fails_to_load_witness :
  App.load_clicked (H:=Sample.steady) Sample.empty_state
  = (Sample.empty_state, Ok App.NoSavedIndex).
Proof.
  apply (proj2 (proj2 (load_clicked_never_fails_to_load (H:=Sample.steady)
                         Sample.empty_state))).
  reflexivity.
Defined.

(** X19: the calls that the process button makes are [process_urls] with the
    save switched on: both leave the same state, raise the same error, and
    return the same store; the two counts that [process_urls] returns are
    the lengths of the lists that the script keeps for its message. *)
Theorem process_clicked_is_process_urls `{Services}
    (doc_processor : DocumentProcessor.t) (urls : list string) (s : State) :
  fst (App.process_clicked doc_processor urls s)
    = fst (DocumentProcessor.process_urls doc_processor urls true s) /\
  snd (DocumentProcessor.process_urls doc_processor urls true s)
    = match snd (App.process_clicked doc_processor urls s) with
      | Ok (vectorstore, documents, chunks) =>
          Ok (vectorstore, length documents, length chunks)
      | Raise e => Raise e
      end.
Proof.
  unfold App.process_clicked, DocumentProcessor.process_urls, bind.
  destruct (DocumentProcessor.load_urls urls s) as [s1 [documents|e]];
    [|split; reflexivity].
  destruct (DocumentProcessor.split_documents doc_processor documents s1)
    as [s2 [chunks|e]]; [|split; reflexivity].
  destruct (DocumentProcessor.create_vectorstore chunks s2)
    as [s3 [vectorstore|e]]; [|split; reflexivity].
  destruct (DocumentProcessor.save_vectorstore vectorstore None s3)
    as [s4 [[]|e]]; split; reflexivity.
Qed.

Lemma load_vectorstore_none_iff_witness :
  DocumentProcessor.load_vectorstore (H:=Sample.steady) (Some "nowhere")
    Sample.empty_state = (Sample.empty_state, Ok None).
Proof.
  apply (proj1 (proj2 (load_vectorstore_none_iff (H:=Sample.steady)
                         "nowhere" Sample.empty_state))).
  reflexivity.
Defined.
